(** * Inventory quantity ledger of the stock manager server

    A shallow embedding of the Express/Mongoose server: the Inventory and
    Transaction models, the request validators, the inventory and
    transaction routes, and the category report.

    Conventions of the embedding.
    - A JavaScript Number holding a quantity or a threshold is a [Z]; a
      cost (a decimal) is a [Q].  A double holds the integers up to 2^53
      in magnitude exactly, and computes on them as [Z] does while the
      results stay within them; the properties that depend on it say so
      ([safe], [exactZ], [exactRun]).
    - The quantity of a transaction request is a JSON value, a number or
      a string ([JsValue]): the validator lets both through and nothing
      converts a string.  [postTransactionJs] is the route on the value
      as it arrives; [postTransaction] is the route on a quantity that
      is a number, and the two agree unless a string is checked in
      ([postTransactionJs_typed]).
    - A Mongoose ObjectId is the [string] of its 24 hexadecimal digits.
    - The database is a record of two collections: the inventories, a
      finite map from _id to document, and the transactions, a list in
      insertion order.
    - A route is a function from the authenticated user, the request and
      the database to the response and the new database.  [save()] runs
      the schema validators of the modified paths before it writes.
    - express-validator's [isMongoId] is a parameter of the validators;
      [hex24] is the instance the examples run with.
    - Timestamps, populated references, notes and the supplier and
      location sub-documents play no part in the ledger and are left
      out: the requests of the model carry the fields of
      [TransactionRequest.t] and [InventoryBody.t] and no others. *)

From Stdlib Require Import ZArith QArith String Ascii List Bool Lia DecimalString.
From stdpp Require Import gmap strings list fin_maps.
Import ListNotations.

Local Open Scope string_scope.
Local Open Scope Z_scope.

Abbreviation ObjectId := string.

(** ** Models *)

(** src/models/Inventory.js *)
Module Inventory.

Record doc : Type := mk {
  name : string;
  category : ObjectId;
  school : ObjectId;
  quantity : Z;
  unit_ : string;
  minThreshold : Z;
  maxThreshold : Z;
  cost : Q;
  isActive : bool
}.

(** The getter of the [stockStatus] virtual, on the three fields it
    reads. *)
Definition classifyStock (quantity minThreshold maxThreshold : Z) : string :=
  if quantity <=? 0 then "out-of-stock"
  else if quantity <=? minThreshold then "low-stock"
  else if quantity >=? maxThreshold then "overstock"
  else "in-stock".

Definition stockStatus (this : doc) : string :=
  classifyStock (quantity this) (minThreshold this) (maxThreshold this).

Definition totalValue (this : doc) : Q :=
  (inject_Z (quantity this) * cost this)%Q.

(** Schema validators: [quantity: { min: 0 }], [cost: { min: 0 }]. *)
Definition quantityValid (q : Z) : bool := 0 <=? q.
Definition costValid (c : Q) : bool := Qle_bool 0 c.

Definition setQuantity (q : Z) (this : doc) : doc :=
  mk (name this) (category this) (school this) q (unit_ this)
     (minThreshold this) (maxThreshold this) (cost this) (isActive this).

Definition setActive (b : bool) (this : doc) : doc :=
  mk (name this) (category this) (school this) (quantity this) (unit_ this)
     (minThreshold this) (maxThreshold this) (cost this) b.

End Inventory.

(** src/models/Transaction.js *)
Module Transaction.

Record doc : Type := mk {
  type : string;
  inventory : ObjectId;
  school : ObjectId;
  user : ObjectId;
  quantity : Z;
  previousQuantity : Z;
  newQuantity : Z;
  reason : option string;
  cost : Q
}.

Definition enum : list string :=
  ["check-in"; "check-out"; "adjustment"; "transfer"].

(** What [save()] checks on a new transaction: the [type] enum and
    [cost: { min: 0 }]; the required fields are always present here. *)
Definition valid (this : doc) : bool :=
  existsb (String.eqb (type this)) enum && Qle_bool 0 (cost this).

Definition totalValue (this : doc) : Q :=
  (inject_Z (Z.abs (quantity this)) * cost this)%Q.

End Transaction.

(** ** The database and the responses *)

Record Db : Type := mkDb {
  inventories : gmap string Inventory.doc;
  transactions : list Transaction.doc
}.

(** [req.user] as the auth middleware leaves it: the user's _id and the
    _id of the user's school. *)
Record User : Type := mkUser {
  user_id : ObjectId;
  user_school : ObjectId
}.

(** A value of a JSON body that the handlers take for a number: a
    number, or a string.  (The numbers are integers here: the validator
    refuses the others.) *)
Inductive JsValue : Type :=
  | JNum (n : Z)
  | JStr (s : string).

(** What [res.status(..).json(..)] carries besides the message.  The
    requested quantity of the Insufficient stock response is the body's
    value as it was sent: [StockPayloadJs] when it is kept as sent,
    [StockPayload] when it is a number. *)
Inductive Payload : Type :=
  | NoPayload
  | StockPayload (available requested : Z)
  | StockPayloadJs (available : Z) (requested : JsValue)
  | TransactionPayload (transaction : Transaction.doc)
  | ItemPayload (item : Inventory.doc).

Record Response : Type := mkResponse {
  status : Z;
  message : string;
  payload : Payload
}.

(** ** src/middleware/validation.js *)

(** The whitespace that [trim] strips, within ASCII: tab, line feed,
    vertical tab, form feed, carriage return and space. *)
Definition isSpace (c : ascii) : bool :=
  let n := nat_of_ascii c in
  ((n =? 32) || ((9 <=? n) && (n <=? 13)))%nat.

Fixpoint trimStart (s : string) : string :=
  match s with
  | EmptyString => EmptyString
  | String c rest => if isSpace c then trimStart rest else s
  end.

Fixpoint trimEnd (s : string) : string :=
  match s with
  | EmptyString => EmptyString
  | String c rest =>
      match trimEnd rest with
      | EmptyString => if isSpace c then EmptyString else String c EmptyString
      | kept => String c kept
      end
  end.

Definition trim (s : string) : string := trimEnd (trimStart s).

Definition strlen (s : string) : Z := Z.of_nat (String.length s).

(** The JSON body of POST /api/transactions, on the fields the handler
    destructures ([supplier] and [notes] are only copied). *)
Module TransactionBody.
Record t : Type := mk {
  type : string;
  inventory : string;
  quantity : Z;
  reason : option string;
  cost : option Q
}.
End TransactionBody.

(** The JSON body of POST and PUT /api/inventory. *)
Module InventoryBody.
Record t : Type := mk {
  name : string;
  category : option ObjectId;
  quantity : Z;
  unit_ : string;
  minThreshold : option Z;
  maxThreshold : option Z;
  cost : option Q
}.
End InventoryBody.

(** [.optional()] followed by a check: an absent field passes. *)
Definition optional {A : Type} (check : A -> bool) (field : option A) : bool :=
  match field with
  | None => true
  | Some v => check v
  end.

Section Validation.

(** express-validator's [isMongoId], a library predicate on strings. *)
Variable isMongoId : string -> bool.

(** [validateTransaction]: the four checks, then
    [handleValidationErrors]. *)
Definition validateTransaction (body : TransactionBody.t) : bool :=
  existsb (String.eqb (TransactionBody.type body))
          ["check-in"; "check-out"; "adjustment"; "transfer"]
  && isMongoId (TransactionBody.inventory body)
  && (1 <=? TransactionBody.quantity body)
  && optional (fun r => strlen (trim r) <=? 500) (TransactionBody.reason body).

(** The sanitizer [.trim()] rewrites [req.body.reason]. *)
Definition sanitizeTransaction (body : TransactionBody.t) : TransactionBody.t :=
  TransactionBody.mk
    (TransactionBody.type body) (TransactionBody.inventory body)
    (TransactionBody.quantity body)
    (option_map trim (TransactionBody.reason body))
    (TransactionBody.cost body).

(** [validateInventory]. *)
Definition validateInventory (body : InventoryBody.t) : bool :=
  (1 <=? strlen (trim (InventoryBody.name body)))
  && (0 <=? InventoryBody.quantity body)
  && (1 <=? strlen (trim (InventoryBody.unit_ body)))
  && optional (fun m => 0 <=? m) (InventoryBody.minThreshold body)
  && optional (Qle_bool 0) (InventoryBody.cost body).

Definition sanitizeInventory (body : InventoryBody.t) : InventoryBody.t :=
  InventoryBody.mk
    (trim (InventoryBody.name body)) (InventoryBody.category body)
    (InventoryBody.quantity body) (trim (InventoryBody.unit_ body))
    (InventoryBody.minThreshold body) (InventoryBody.maxThreshold body)
    (InventoryBody.cost body).

Definition validationFailed : Response :=
  mkResponse 400 "Validation failed" NoPayload.

End Validation.

(** ** Queries and saves shared by the routes *)

(** [Inventory.findOne({ _id, school })], with [isActive: true] added to
    the filter when [activeOnly] is set. *)
Definition findOne (db : Db) (id school : ObjectId) (activeOnly : bool)
  : option Inventory.doc :=
  match inventories db !! id with
  | Some item =>
      if String.eqb (Inventory.school item) school
         && (negb activeOnly || Inventory.isActive item)
      then Some item else None
  | None => None
  end.

(** What [save()] checks on an inventory document that a route built or
    assigned to: the required strings, [quantity] and [cost]. *)
Definition inventoryValid (item : Inventory.doc) : bool :=
  (1 <=? strlen (Inventory.name item))
  && (1 <=? strlen (Inventory.unit_ item))
  && Inventory.quantityValid (Inventory.quantity item)
  && Inventory.costValid (Inventory.cost item).

(** [value || 0] on a cost. *)
Definition orZero (c : Q) : Q := if Qeq_bool c 0 then 0%Q else c.

(** ** src/routes/transactions.js *)

(** The outcome of the [switch (type)]: either the two quantities, or the
    response of an early [return]. *)
Inductive Computed : Type :=
  | Quantities (newQuantity transactionQuantity : Z)
  | Rejected (response : Response).

Definition insufficientStock (available requested : Z) : Response :=
  mkResponse 400 "Insufficient stock" (StockPayload available requested).

Definition invalidType : Response :=
  mkResponse 400 "Invalid transaction type" NoPayload.

Definition notFound : Response :=
  mkResponse 404 "Inventory item not found" NoPayload.

Definition switchType (type : string) (previousQuantity quantity : Z) : Computed :=
  if String.eqb type "check-in" then
    Quantities (previousQuantity + quantity) quantity
  else if String.eqb type "check-out" then
    if previousQuantity <? quantity
    then Rejected (insufficientStock previousQuantity quantity)
    else Quantities (previousQuantity - quantity) (- quantity)
  else if String.eqb type "adjustment" then
    Quantities quantity (quantity - previousQuantity)
  else Rejected invalidType.

(** [await Promise.all([transaction.save(), inventory.save()])]: both
    saves are started; each validates and writes on its own; the await
    throws, and the handler answers 500, when either one rejects.  Only
    [quantity] was modified on the inventory document. *)
Definition saveBoth (db : Db) (inventoryId : ObjectId)
    (inventory : Inventory.doc) (transaction : Transaction.doc)
  : Response * Db :=
  let transactionSaved := Transaction.valid transaction in
  let inventorySaved := Inventory.quantityValid (Inventory.quantity inventory) in
  let db' :=
    mkDb (if inventorySaved
          then <[inventoryId := inventory]> (inventories db)
          else inventories db)
         (if transactionSaved
          then transactions db ++ [transaction]
          else transactions db) in
  if transactionSaved && inventorySaved
  then (mkResponse 201 "Transaction created successfully"
                   (TransactionPayload transaction), db')
  else (mkResponse 500 "Failed to create transaction" NoPayload, db').

(** The transaction the handler builds; the schema trims [reason]. *)
Definition newTransaction (user : User) (body : TransactionBody.t)
    (transactionQuantity previousQuantity newQuantity : Z) : Transaction.doc :=
  Transaction.mk
    (TransactionBody.type body) (TransactionBody.inventory body)
    (user_school user) (user_id user)
    transactionQuantity previousQuantity newQuantity
    (option_map trim (TransactionBody.reason body))
    (default 0%Q (TransactionBody.cost body)).

(** The handler of POST /, after the middleware. *)
Definition createTransaction (user : User) (body : TransactionBody.t) (db : Db)
  : Response * Db :=
  let inventoryId := TransactionBody.inventory body in
  let quantity := TransactionBody.quantity body in
  match findOne db inventoryId (user_school user) true with
  | None => (notFound, db)
  | Some inventory =>
      let previousQuantity := Inventory.quantity inventory in
      match switchType (TransactionBody.type body) previousQuantity quantity with
      | Rejected response => (response, db)
      | Quantities newQuantity transactionQuantity =>
          saveBoth db inventoryId
            (Inventory.setQuantity newQuantity inventory)
            (newTransaction user body transactionQuantity previousQuantity newQuantity)
      end
  end.

Section Routes.

Variable isMongoId : string -> bool.

(** POST /api/transactions: [validateTransaction], then the handler. *)
Definition postTransaction (user : User) (body : TransactionBody.t) (db : Db)
  : Response * Db :=
  if validateTransaction isMongoId body
  then createTransaction user (sanitizeTransaction body) db
  else (validationFailed, db).

(** ** src/routes/inventory.js *)

(** [new Inventory({ ...req.body, school })] with the schema defaults;
    [None] when the required [category] is missing. *)
Definition newInventory (user : User) (body : InventoryBody.t)
  : option Inventory.doc :=
  match InventoryBody.category body with
  | None => None
  | Some category =>
      Some (Inventory.mk
              (trim (InventoryBody.name body)) category (user_school user)
              (InventoryBody.quantity body) (InventoryBody.unit_ body)
              (default 5 (InventoryBody.minThreshold body))
              (default 100 (InventoryBody.maxThreshold body))
              (default 0%Q (InventoryBody.cost body))
              true)
  end.

Definition initialStock (user : User) (itemId : ObjectId) (item : Inventory.doc)
  : Transaction.doc :=
  Transaction.mk "check-in" itemId (user_school user) (user_id user)
    (Inventory.quantity item) 0 (Inventory.quantity item)
    (Some (trim "Initial stock")) (orZero (Inventory.cost item)).

(** POST /api/inventory.  [itemId] is the _id the new document gets; the
    save fails on an _id already in the collection. *)
Definition createInventory (itemId : ObjectId) (user : User)
    (body : InventoryBody.t) (db : Db) : Response * Db :=
  let failed := mkResponse 500 "Failed to create inventory item" NoPayload in
  match newInventory user body, inventories db !! itemId with
  | Some item, None =>
      if inventoryValid item then
        let db1 := mkDb (<[itemId := item]> (inventories db)) (transactions db) in
        if 0 <? Inventory.quantity item then
          let transaction := initialStock user itemId item in
          if Transaction.valid transaction
          then (mkResponse 201 "Inventory item created successfully" (ItemPayload item),
                mkDb (inventories db1) (transactions db1 ++ [transaction]))
          else (failed, db1)
        else (mkResponse 201 "Inventory item created successfully" (ItemPayload item), db1)
      else (failed, db)
  | _, _ => (failed, db)
  end.

Definition postInventory (itemId : ObjectId) (user : User)
    (body : InventoryBody.t) (db : Db) : Response * Db :=
  if validateInventory body
  then createInventory itemId user (sanitizeInventory body) db
  else (validationFailed, db).

(** [Object.assign(item, req.body)]: the fields present in the body
    overwrite the document's. *)
Definition assign (item : Inventory.doc) (body : InventoryBody.t) : Inventory.doc :=
  Inventory.mk
    (trim (InventoryBody.name body))
    (default (Inventory.category item) (InventoryBody.category body))
    (Inventory.school item)
    (InventoryBody.quantity body)
    (InventoryBody.unit_ body)
    (default (Inventory.minThreshold item) (InventoryBody.minThreshold body))
    (default (Inventory.maxThreshold item) (InventoryBody.maxThreshold body))
    (default (Inventory.cost item) (InventoryBody.cost body))
    (Inventory.isActive item).

Definition manualAdjustment (user : User) (itemId : ObjectId)
    (previousQuantity : Z) (item : Inventory.doc) : Transaction.doc :=
  Transaction.mk "adjustment" itemId (user_school user) (user_id user)
    (Inventory.quantity item - previousQuantity)
    previousQuantity (Inventory.quantity item)
    (Some (trim "Manual adjustment")) (orZero (Inventory.cost item)).

(** The handler of PUT /api/inventory/:id. *)
Definition updateInventory (itemId : ObjectId) (user : User)
    (body : InventoryBody.t) (db : Db) : Response * Db :=
  let failed := mkResponse 500 "Failed to update inventory item" NoPayload in
  match findOne db itemId (user_school user) false with
  | None => (notFound, db)
  | Some found =>
      let previousQuantity := Inventory.quantity found in
      let item := assign found body in
      if inventoryValid item then
        let db1 := mkDb (<[itemId := item]> (inventories db)) (transactions db) in
        if negb (previousQuantity =? Inventory.quantity item) then
          let transaction := manualAdjustment user itemId previousQuantity item in
          if Transaction.valid transaction
          then (mkResponse 200 "Inventory item updated successfully" (ItemPayload item),
                mkDb (inventories db1) (transactions db1 ++ [transaction]))
          else (failed, db1)
        else (mkResponse 200 "Inventory item updated successfully" (ItemPayload item), db1)
      else (failed, db)
  end.

Definition putInventory (itemId : ObjectId) (user : User)
    (body : InventoryBody.t) (db : Db) : Response * Db :=
  if validateInventory body
  then updateInventory itemId user (sanitizeInventory body) db
  else (validationFailed, db).

(** DELETE /api/inventory/:id, the soft delete. *)
Definition deleteInventory (itemId : ObjectId) (user : User) (db : Db)
  : Response * Db :=
  match findOne db itemId (user_school user) false with
  | None => (notFound, db)
  | Some item =>
      (mkResponse 200 "Inventory item deleted successfully" NoPayload,
       mkDb (<[itemId := Inventory.setActive false item]> (inventories db))
            (transactions db))
  end.

(** ** The requests that write to the ledger *)

Inductive Request : Type :=
  | PostInventory (itemId : ObjectId) (body : InventoryBody.t)
  | PutInventory (itemId : ObjectId) (body : InventoryBody.t)
  | DeleteInventory (itemId : ObjectId)
  | PostTransaction (body : TransactionBody.t).

Definition handle (user : User) (request : Request) (db : Db) : Response * Db :=
  match request with
  | PostInventory itemId body => postInventory itemId user body db
  | PutInventory itemId body => putInventory itemId user body db
  | DeleteInventory itemId => deleteInventory itemId user db
  | PostTransaction body => postTransaction user body db
  end.

(** The database after a sequence of requests, each with its user. *)
Fixpoint run (requests : list (User * Request)) (db : Db) : Db :=
  match requests with
  | [] => db
  | (user, request) :: rest => run rest (handle user request db).2
  end.

End Routes.

(** ** src/routes/reports.js: the category performance report *)

Record Category : Type := mkCategory {
  category_name : string;
  category_color : string
}.

(** A document after the [$group] stage. *)
Module Group.
Record t : Type := mk {
  _id : ObjectId;
  itemCount : Z;
  totalQuantity : Z;
  totalValue : Q;
  lowStockItems : Z
}.
End Group.

(** A document after the [$project] stage. *)
Module CategoryStat.
Record t : Type := mk {
  _id : ObjectId;
  name : string;
  color : string;
  itemCount : Z;
  totalQuantity : Z;
  totalValue : Q;
  lowStockItems : Z;
  averageValue : Q
}.
End CategoryStat.

(** [{ $match: { school: schoolId, isActive: true } }] *)
Definition matchStage (schoolId : ObjectId) (items : list Inventory.doc)
  : list Inventory.doc :=
  List.filter
    (fun item => String.eqb (Inventory.school item) schoolId && Inventory.isActive item)
    items.

Definition lowStock (item : Inventory.doc) : Z :=
  if Inventory.quantity item <=? Inventory.minThreshold item then 1 else 0.

(** The accumulators of the [$group] stage, started by the first item of
    a category and advanced by each further one. *)
Definition startGroup (item : Inventory.doc) : Group.t :=
  Group.mk (Inventory.category item) 1 (Inventory.quantity item)
           (Inventory.totalValue item) (lowStock item).

Definition accumulate (g : Group.t) (item : Inventory.doc) : Group.t :=
  Group.mk (Group._id g)
           (Group.itemCount g + 1)
           (Group.totalQuantity g + Inventory.quantity item)
           (Group.totalValue g + Inventory.totalValue item)%Q
           (Group.lowStockItems g + lowStock item).

Fixpoint addToGroups (item : Inventory.doc) (groups : list Group.t) : list Group.t :=
  match groups with
  | [] => [startGroup item]
  | g :: rest =>
      if String.eqb (Group._id g) (Inventory.category item)
      then accumulate g item :: rest
      else g :: addToGroups item rest
  end.

Definition groupStage (items : list Inventory.doc) : list Group.t :=
  fold_left (fun groups item => addToGroups item groups) items [].

(** [$divide]: the aggregation fails on a zero divisor. *)
Definition divide (a b : Q) : option Q :=
  if Qeq_bool b 0 then None else Some (a / b)%Q.

(** [$lookup] into the categories, [$unwind] (a group whose category
    document is missing is dropped), then [$project]. *)
Definition projectStage (categories : gmap string Category) (g : Group.t)
  : option (list CategoryStat.t) :=
  match categories !! Group._id g with
  | None => Some []
  | Some category =>
      match divide (Group.totalValue g) (inject_Z (Group.itemCount g)) with
      | None => None
      | Some average =>
          Some [CategoryStat.mk (Group._id g)
                  (category_name category) (category_color category)
                  (Group.itemCount g) (Group.totalQuantity g)
                  (Group.totalValue g) (Group.lowStockItems g) average]
      end
  end.

Fixpoint projectAll (categories : gmap string Category) (groups : list Group.t)
  : option (list CategoryStat.t) :=
  match groups with
  | [] => Some []
  | g :: rest =>
      match projectStage categories g, projectAll categories rest with
      | Some rows, Some more => Some (rows ++ more)%list
      | _, _ => None
      end
  end.

(** [{ $sort: { totalValue: -1 } }] *)
Fixpoint insertByValue (row : CategoryStat.t) (sorted : list CategoryStat.t)
  : list CategoryStat.t :=
  match sorted with
  | [] => [row]
  | r :: rest =>
      if Qle_bool (CategoryStat.totalValue r) (CategoryStat.totalValue row)
      then row :: sorted
      else r :: insertByValue row rest
  end.

Definition sortStage (rows : list CategoryStat.t) : list CategoryStat.t :=
  fold_right insertByValue [] rows.

(** The aggregate of GET /api/reports/categories; [None] when the
    pipeline throws. *)
Definition categoryStats (schoolId : ObjectId)
    (categories : gmap string Category) (items : list Inventory.doc)
  : option (list CategoryStat.t) :=
  option_map sortStage (projectAll categories (groupStage (matchStage schoolId items))).

(** ** Sample data *)

(** The ObjectId strings: 24 hexadecimal digits. *)
Definition isHexDigit (c : ascii) : bool :=
  let n := nat_of_ascii c in
  (((48 <=? n) && (n <=? 57)) || ((65 <=? n) && (n <=? 70))
   || ((97 <=? n) && (n <=? 102)))%nat.

Definition hex24 (s : string) : bool :=
  (String.length s =? 24)%nat && forallb isHexDigit (list_ascii_of_string s).

Definition pencilsId : ObjectId := "64b7f0a1c2d3e4f5a6b7c8d9".
Definition suppliesId : ObjectId := "64b7f0a1c2d3e4f5a6b7c8da".
Definition lincolnId : ObjectId := "64b7f0a1c2d3e4f5a6b7c8db".
Definition staffId : ObjectId := "64b7f0a1c2d3e4f5a6b7c8dc".

Definition staff : User := mkUser staffId lincolnId.

Definition pencils (quantity : Z) : Inventory.doc :=
  Inventory.mk "Pencils" suppliesId lincolnId quantity "boxes" 5 100 (3 # 2) true.

Definition stockroom (quantity : Z) : Db :=
  mkDb {[ pencilsId := pencils quantity ]} [].

Definition move (type : string) (quantity : Z) (cost : option Q) : TransactionBody.t :=
  TransactionBody.mk type pencilsId quantity (Some " recount ") cost.

Definition supplies : gmap string Category :=
  {[ suppliesId := mkCategory "Supplies" "#3B82F6" ]}.

Definition newPencils (quantity : Z) : InventoryBody.t :=
  InventoryBody.mk "Pencils" (Some suppliesId) quantity "boxes" None None (Some (3 # 2)).

(** ** Ledger invariants *)

(** No inventory document holds a negative quantity. *)
Definition nonNegative (db : Db) : Prop :=
  forall id item, inventories db !! id = Some item -> 0 <= Inventory.quantity item.

(** The bookkeeping equation of a transaction. *)
Definition balanced (t : Transaction.doc) : Prop :=
  Transaction.previousQuantity t + Transaction.quantity t = Transaction.newQuantity t.

(** The request's cost passes the transaction schema's [min: 0]. *)
Definition costAccepted (body : TransactionBody.t) : bool :=
  Qle_bool 0 (default 0%Q (TransactionBody.cost body)).

Definition created (transaction : Transaction.doc) : Response :=
  mkResponse 201 "Transaction created successfully" (TransactionPayload transaction).

(** A group of the report: it counts at least one item and its category
    id has the property [R]. *)
Definition groupOk (R : ObjectId -> Prop) (g : Group.t) : Prop :=
  1 <= Group.itemCount g /\ R (Group._id g).

(** A row of the report: its average is its total value over its item
    count, which is at least 1, and its category id has the property
    [R]. *)
Definition rowOk (R : ObjectId -> Prop) (row : CategoryStat.t) : Prop :=
  1 <= CategoryStat.itemCount row
  /\ CategoryStat.averageValue row
     = (CategoryStat.totalValue row / inject_Z (CategoryStat.itemCount row))%Q
  /\ R (CategoryStat._id row).

(** ** The log as the history of the items *)

(** The transactions of one item, in the order they were written. *)
Definition historyOf (itemId : ObjectId) (log : list Transaction.doc)
  : list Transaction.doc :=
  List.filter (fun t => String.eqb (Transaction.inventory t) itemId) log.

Definition sumZ (l : list Z) : Z := fold_right Z.add 0 l.

(** The sum of the deltas the log holds for an item. *)
Definition replay (itemId : ObjectId) (log : list Transaction.doc) : Z :=
  sumZ (map Transaction.quantity (historyOf itemId log)).


(** The quantity the inventories collection holds under an _id, 0 when
    there is no such document. *)
Definition stored (db : Db) (itemId : ObjectId) : Z :=
  match inventories db !! itemId with
  | Some item => Inventory.quantity item
  | None => 0
  end.



(** The types the handlers write. *)
Definition writtenType (t : Transaction.doc) : Prop :=
  Transaction.type t = "check-in"
  \/ Transaction.type t = "check-out"
  \/ Transaction.type t = "adjustment".

(** ** What one request may write *)

(** A request of [user] either leaves the database as it is, or writes
    one inventory document of the user's school, under an _id that was
    free or held a document of that school, and appends at most one
    transaction, written in the user's name for that document. *)
Definition writes (user : User) (db db' : Db) : Prop :=
  db' = db
  \/ exists id item new,
       inventories db' = <[id := item]> (inventories db)
       /\ transactions db' = (transactions db ++ new)%list
       /\ (length new <= 1)%nat
       /\ Inventory.school item = user_school user
       /\ (forall old, inventories db !! id = Some old ->
                       Inventory.school old = user_school user)
       /\ Forall (fun t =>
                    Transaction.inventory t = id
                    /\ Transaction.school t = user_school user
                    /\ Transaction.user t = user_id user
                    /\ writtenType t)
                 new.

(** ** Sorting and counting, as the queries do *)

(** [.sort(..)]: [before x y] tells that [x] may stand before [y]. *)
Fixpoint insertBy {A : Type} (before : A -> A -> bool) (x : A) (sorted : list A)
  : list A :=
  match sorted with
  | [] => [x]
  | y :: rest =>
      if before x y then x :: sorted else y :: insertBy before x rest
  end.

Definition sortBy {A : Type} (before : A -> A -> bool) (l : list A) : list A :=
  fold_right (insertBy before) [] l.

(** [Model.countDocuments(query)] *)
Definition countDocuments {A : Type} (query : A -> bool) (collection : list A) : Z :=
  Z.of_nat (length (List.filter query collection)).

(** ** src/routes/transactions.js: GET /summary/stats *)

(** The [createdAt] condition of a date range: [$gte] the start when one
    is given, [$lte] the end when one is given.  Dates are milliseconds. *)
Definition createdBetween (startDate endDate : option Z) (createdAt : Z) : bool :=
  optional (fun s => s <=? createdAt) startDate
  && optional (fun e => createdAt <=? e) endDate.

(** [dateFilter], on a stored transaction and its [createdAt]. *)
Definition dateFilter (schoolId : ObjectId) (startDate endDate : option Z)
    (stored : Z * Transaction.doc) : bool :=
  String.eqb (Transaction.school stored.2) schoolId
  && createdBetween startDate endDate stored.1.

Definition ofType (type : string) (stored : Z * Transaction.doc) : bool :=
  String.eqb (Transaction.type stored.2) type.

Module SummaryStats.
Record t : Type := mk {
  total : Z;
  checkIn : Z;
  checkOut : Z;
  adjustment : Z;
  recent : list (Z * Transaction.doc)
}.
End SummaryStats.

(** The five queries of the route, over the transactions collection with
    the [createdAt] of each document. *)
Definition summaryStats (schoolId : ObjectId) (startDate endDate : option Z)
    (collection : list (Z * Transaction.doc)) : SummaryStats.t :=
  let query := dateFilter schoolId startDate endDate in
  SummaryStats.mk
    (countDocuments query collection)
    (countDocuments (fun d => query d && ofType "check-in" d) collection)
    (countDocuments (fun d => query d && ofType "check-out" d) collection)
    (countDocuments (fun d => query d && ofType "adjustment" d) collection)
    (take 5 (sortBy (fun a b => b.1 <=? a.1) (List.filter query collection))).

(** ** A sample term of requests *)

Definition term : list (User * Request) :=
  [(staff, PostInventory pencilsId (newPencils 10));
   (staff, PostTransaction (move "check-out" 4 None));
   (staff, PostTransaction (move "adjustment" 2 (Some (1 # 2)%Q)));
   (staff, PutInventory pencilsId (newPencils 0));
   (staff, PostTransaction (move "transfer" 1 None));
   (staff, PostTransaction (move "check-in" 7 None))].

(** The log of the term, one transaction written every second. *)
Definition termLog : list (Z * Transaction.doc) :=
  combine [1000; 2000; 3000; 4000; 5000]
          (transactions (run hex24 term (mkDb ∅ []))).

(** ** src/routes/inventory.js: GET / *)

(** The condition the [switch (status)] adds to the query; an empty or
    unknown status adds none. *)
Definition statusQuery (status : string) (item : Inventory.doc) : bool :=
  if String.eqb status "low-stock" then
    Inventory.quantity item <=? Inventory.minThreshold item
  else if String.eqb status "out-of-stock" then
    Inventory.quantity item =? 0
  else if String.eqb status "overstock" then
    Inventory.quantity item >=? Inventory.maxThreshold item
  else if String.eqb status "in-stock" then
    (Inventory.minThreshold item <? Inventory.quantity item)
    && (Inventory.quantity item <? Inventory.maxThreshold item)
  else true.

(** [.skip(n)]: the store refuses a negative skip. *)
Definition skipStage {A : Type} (n : Z) (found : list A) : option (list A) :=
  if n <? 0 then None else Some (drop (Z.to_nat n) found).

(** [.limit(n)]: 0 is no limit, and a negative limit counts by its
    absolute value. *)
Definition limitStage {A : Type} (n : Z) (found : list A) : list A :=
  if n =? 0 then found else take (Z.to_nat (Z.abs n)) found.

(** [Math.ceil(total / limit)], on integers; there is no such number
    when the limit is 0. *)
Definition pageCount (total limit : Z) : option Z :=
  if limit =? 0 then None else Some (- ((- total) / limit)).

Module Pagination.
Record t : Type := mk {
  current : Z;
  pages : option Z;
  total : Z;
  limit : Z
}.
End Pagination.

(** The page of a list route (inventory, transactions): [found] is the
    sorted result of the query, [page] and [limit] the parsed numbers.
    [None] when the query throws. *)
Definition paginate {A : Type} (page limit : Z) (found : list A)
  : option (list A * Pagination.t) :=
  let skip := (page - 1) * limit in
  let total := Z.of_nat (length found) in
  match skipStage skip found with
  | None => None
  | Some rest =>
      Some (limitStage limit rest,
            Pagination.mk page (pageCount total limit) total limit)
  end.

(** ** src/routes/reports.js: the low stock report *)


(** ** The order of the category report *)

(** No row has a larger total value than a row before it. *)
Fixpoint descending (rows : list CategoryStat.t) : Prop :=
  match rows with
  | [] => True
  | row :: rest =>
      Forall (fun later =>
                (CategoryStat.totalValue later <= CategoryStat.totalValue row)%Q)
             rest
      /\ descending rest
  end.

(** ** src/routes/categories.js: DELETE /:id *)

(** src/models/Category.js *)
Module CategoryDoc.
Record t : Type := mk {
  name : string;
  color : string;
  school : ObjectId;
  isActive : bool
}.
End CategoryDoc.

Record CategoryResponse : Type := mkCategoryResponse {
  categoryStatus : Z;
  categoryMessage : string;
  categoryItemCount : option Z
}.

(** [Inventory.countDocuments({ category, school, isActive: true })] *)
Definition countItems (categoryId schoolId : ObjectId) (db : Db) : Z :=
  countDocuments
    (fun item =>
       String.eqb (Inventory.category item) categoryId
       && String.eqb (Inventory.school item) schoolId
       && Inventory.isActive item)
    (map snd (map_to_list (inventories db))).

(** The soft delete of a category, refused while items refer to it. *)
Definition deleteCategory (categoryId : ObjectId) (user : User)
    (categories : gmap string CategoryDoc.t) (db : Db)
  : CategoryResponse * gmap string CategoryDoc.t :=
  let missing := mkCategoryResponse 404 "Category not found" None in
  match categories !! categoryId with
  | Some category =>
      if String.eqb (CategoryDoc.school category) (user_school user) then
        let itemCount := countItems categoryId (user_school user) db in
        if 0 <? itemCount then
          (mkCategoryResponse 400 "Cannot delete category with existing items"
             (Some itemCount),
           categories)
        else
          (mkCategoryResponse 200 "Category deleted successfully" None,
           <[categoryId :=
               CategoryDoc.mk (CategoryDoc.name category) (CategoryDoc.color category)
                 (CategoryDoc.school category) false]>
             categories)
      else (missing, categories)
  | None => (missing, categories)
  end.

Definition classrooms : gmap string CategoryDoc.t :=
  {[ suppliesId := CategoryDoc.mk "Supplies" "#3B82F6" lincolnId true ]}.

(** ** The transaction route on the quantity as the request spells it *)

Definition isDigit (c : ascii) : bool :=
  let n := nat_of_ascii c in ((48 <=? n) && (n <=? 57))%nat.

Fixpoint digitsValue (s : string) (acc : Z) : option Z :=
  match s with
  | EmptyString => Some acc
  | String c rest =>
      if isDigit c
      then digitsValue rest (acc * 10 + Z.of_nat (nat_of_ascii c - 48))
      else None
  end.

(** The strings of [/^[-+]?[0-9]+$/], with their value. *)
Definition intLiteral (s : string) : option Z :=
  match s with
  | EmptyString => None
  | String c rest =>
      match rest with
      | EmptyString => digitsValue s 0
      | String _ _ =>
          if Ascii.eqb c "+" then digitsValue rest 0
          else if Ascii.eqb c "-" then option_map Z.opp (digitsValue rest 0)
          else digitsValue s 0
      end
  end.

(** express-validator's [isInt({ min })]: the value's string is an
    optional sign and digits, and its number is at least [min].  A number
    of magnitude 10^21 or more is spelt with an exponent, and refused. *)
Definition isInt (min : Z) (v : JsValue) : bool :=
  match v with
  | JNum n => (Z.abs n <? 10 ^ 21) && (min <=? n)
  | JStr s =>
      match intLiteral s with
      | Some n => min <=? n
      | None => false
      end
  end.

(** [ToNumber], on a value the validator lets through; no other string
    reaches the handler. *)
Definition toNumber (v : JsValue) : Z :=
  match v with
  | JNum n => n
  | JStr s => default 0 (intLiteral s)
  end.

(** [String(n)] of an integer below 10^21 in magnitude. *)
Definition decimal (n : Z) : string := NilZero.string_of_int (Z.to_int n).

(** [previousQuantity + quantity]: a sum of numbers, but a concatenation
    when the quantity is a string. *)
Definition jsPlus (previousQuantity : Z) (quantity : JsValue) : JsValue :=
  match quantity with
  | JNum n => JNum (previousQuantity + n)
  | JStr s => JStr (decimal previousQuantity ++ s)
  end.

(** The cast of a Number path: a number as it is, a string by
    [Number(..)], which fails on what is not a numeric literal.  The
    strings met here are integer literals, or a number followed by one. *)
Definition castNumber (v : JsValue) : option Z :=
  match v with
  | JNum n => Some n
  | JStr s => intLiteral s
  end.

Module TransactionRequest.
Record t : Type := mk {
  type : string;
  inventory : string;
  quantity : JsValue;
  reason : option string;
  cost : option Q
}.
End TransactionRequest.

(** The request with its quantity read as a number. *)
Definition typedBody (request : TransactionRequest.t) : TransactionBody.t :=
  TransactionBody.mk
    (TransactionRequest.type request) (TransactionRequest.inventory request)
    (toNumber (TransactionRequest.quantity request))
    (TransactionRequest.reason request) (TransactionRequest.cost request).

(** The outcome of the [switch (type)], before any cast. *)
Inductive ComputedJs : Type :=
  | QuantitiesJs (newQuantity transactionQuantity : JsValue)
  | RejectedJs (response : Response).

(** The Insufficient stock response, with the requested quantity as it
    was sent. *)
Definition insufficientStockJs (available : Z) (requested : JsValue) : Response :=
  mkResponse 400 "Insufficient stock" (StockPayloadJs available requested).

(** The [switch (type)] with JavaScript's operators: [<] and [-] take
    the quantity's number, [+] does not. *)
Definition switchTypeJs (type : string) (previousQuantity : Z) (quantity : JsValue)
  : ComputedJs :=
  if String.eqb type "check-in" then
    QuantitiesJs (jsPlus previousQuantity quantity) quantity
  else if String.eqb type "check-out" then
    if previousQuantity <? toNumber quantity
    then RejectedJs (insufficientStockJs previousQuantity quantity)
    else QuantitiesJs (JNum (previousQuantity - toNumber quantity))
                      (JNum (- toNumber quantity))
  else if String.eqb type "adjustment" then
    QuantitiesJs quantity (JNum (toNumber quantity - previousQuantity))
  else RejectedJs invalidType.

(** The handler of POST /.  A [newQuantity] that cannot be cast fails
    both saves; a transaction quantity that cannot be cast fails the
    transaction's save alone. *)
Definition createTransactionJs (user : User) (request : TransactionRequest.t)
    (db : Db) : Response * Db :=
  let inventoryId := TransactionRequest.inventory request in
  let failed := mkResponse 500 "Failed to create transaction" NoPayload in
  match findOne db inventoryId (user_school user) true with
  | None => (notFound, db)
  | Some inventory =>
      let previousQuantity := Inventory.quantity inventory in
      match switchTypeJs (TransactionRequest.type request) previousQuantity
                         (TransactionRequest.quantity request) with
      | RejectedJs response => (response, db)
      | QuantitiesJs newQuantity transactionQuantity =>
          match castNumber newQuantity, castNumber transactionQuantity with
          | Some n, Some d =>
              saveBoth db inventoryId (Inventory.setQuantity n inventory)
                (newTransaction user (typedBody request) d previousQuantity n)
          | Some n, None =>
              (failed,
               mkDb (if Inventory.quantityValid n
                     then <[inventoryId := Inventory.setQuantity n inventory]>
                            (inventories db)
                     else inventories db)
                    (transactions db))
          | None, _ => (failed, db)
          end
      end
  end.

(** [validateTransaction] on the request as it arrives. *)
Definition validateTransactionJs (isMongoId : string -> bool)
    (request : TransactionRequest.t) : bool :=
  existsb (String.eqb (TransactionRequest.type request))
          ["check-in"; "check-out"; "adjustment"; "transfer"]
  && isMongoId (TransactionRequest.inventory request)
  && isInt 1 (TransactionRequest.quantity request)
  && optional (fun r => strlen (trim r) <=? 500) (TransactionRequest.reason request).

Definition sanitizeTransactionJs (request : TransactionRequest.t)
  : TransactionRequest.t :=
  TransactionRequest.mk
    (TransactionRequest.type request) (TransactionRequest.inventory request)
    (TransactionRequest.quantity request)
    (option_map trim (TransactionRequest.reason request))
    (TransactionRequest.cost request).

(** POST /api/transactions on the request as it arrives. *)
Definition postTransactionJs (isMongoId : string -> bool) (user : User)
    (request : TransactionRequest.t) (db : Db) : Response * Db :=
  if validateTransactionJs isMongoId request
  then createTransactionJs user (sanitizeTransactionJs request) db
  else (validationFailed, db).

(** The quantities within which the doubles compute as the integers do:
    a double holds every integer from 0 to 2^53, and the difference of
    any two of them, exactly. *)
Definition safe (n : Z) : Prop := 0 <= n <= 2 ^ 53.

Definition moveJs (type : string) (quantity : JsValue) (cost : option Q)
  : TransactionRequest.t :=
  TransactionRequest.mk type pencilsId quantity (Some " recount ") cost.



(** ** The requests as they arrive *)

(** The requests that write to the ledger, the transaction with its
    quantity as the JSON body spells it. *)
Inductive RequestJs : Type :=
  | JsPostInventory (itemId : ObjectId) (body : InventoryBody.t)
  | JsPutInventory (itemId : ObjectId) (body : InventoryBody.t)
  | JsDeleteInventory (itemId : ObjectId)
  | JsPostTransaction (request : TransactionRequest.t).

Definition handleJs (isMongoId : string -> bool) (user : User)
    (request : RequestJs) (db : Db) : Response * Db :=
  match request with
  | JsPostInventory itemId body => postInventory itemId user body db
  | JsPutInventory itemId body => putInventory itemId user body db
  | JsDeleteInventory itemId => deleteInventory itemId user db
  | JsPostTransaction request => postTransactionJs isMongoId user request db
  end.

(** The database after a sequence of requests, handled one after the
    other, each with its user. *)
Fixpoint runJs (isMongoId : string -> bool) (requests : list (User * RequestJs))
    (db : Db) : Db :=
  match requests with
  | [] => db
  | (user, request) :: rest =>
      runJs isMongoId rest (handleJs isMongoId user request db).2
  end.

(** An integer that a double holds exactly. *)
Definition exactZ (n : Z) : bool := Z.abs n <=? 2 ^ 53.


(** The handlers take every number of the request for the integer it
    spells: an inventory body names a category the schema can cast and
    integers that doubles hold exactly; a transaction is not a check-in
    of a string, its quantity is such an integer, and its cost passes
    the Transaction schema. *)
Definition takenExactly (request : RequestJs) : bool :=
  match request with
  | JsPostInventory _ body | JsPutInventory _ body =>
      optional hex24 (InventoryBody.category body)
      && exactZ (InventoryBody.quantity body)
      && optional exactZ (InventoryBody.minThreshold body)
      && optional exactZ (InventoryBody.maxThreshold body)
  | JsDeleteInventory _ => true
  | JsPostTransaction request =>
      (negb (String.eqb (TransactionRequest.type request) "check-in")
       || match TransactionRequest.quantity request with
          | JNum _ => true
          | JStr _ => false
          end)
      && exactZ (toNumber (TransactionRequest.quantity request))
      && costAccepted (typedBody request)
  end.



(** A sample run: ten pencils created, four checked out (the quantity
    sent as a string), an adjustment to 2, an update to 0, a transfer,
    and seven checked in. *)
Definition termJs : list (User * RequestJs) :=
  [(staff, JsPostInventory pencilsId (newPencils 10));
   (staff, JsPostTransaction (moveJs "check-out" (JStr "4") None));
   (staff, JsPostTransaction (moveJs "adjustment" (JNum 2) (Some (1 # 2)%Q)));
   (staff, JsPutInventory pencilsId (newPencils 0));
   (staff, JsPostTransaction (moveJs "transfer" (JNum 1) None));
   (staff, JsPostTransaction (moveJs "check-in" (JNum 7) None))].


(** * Properties *)

(** ** Strings *)

Lemma trimEnd_cons (c : ascii) (rest : string) :
  trimEnd (String c rest) =
  match trimEnd rest with
  | EmptyString => if isSpace c then EmptyString else String c EmptyString
  | kept => String c kept
  end.
Proof. reflexivity. Qed.

Lemma trimEnd_idempotent (s : string) : trimEnd (trimEnd s) = trimEnd s.
Proof.
  induction s as [|c rest IH]; [reflexivity|].
  rewrite (trimEnd_cons c rest).
  destruct (trimEnd rest) as [|d kept] eqn:E.
  - destruct (isSpace c) eqn:Hc; [reflexivity|].
    rewrite trimEnd_cons. cbn [trimEnd]. now rewrite Hc.
  - rewrite trimEnd_cons, IH. reflexivity.
Qed.

Lemma trimEnd_keeps_head (c : ascii) (rest : string) :
  isSpace c = false -> exists kept, trimEnd (String c rest) = String c kept.
Proof.
  intros Hc. simpl. destruct (trimEnd rest) as [|d kept].
  - rewrite Hc. now exists EmptyString.
  - now exists (String d kept).
Qed.

Lemma trimStart_head (s : string) :
  trimStart s = EmptyString
  \/ exists c rest, trimStart s = String c rest /\ isSpace c = false.
Proof.
  induction s as [|c rest IH]; simpl; [now left|].
  destruct (isSpace c) eqn:Hc; [exact IH|]. right. now exists c, rest.
Qed.

Lemma trim_idempotent (s : string) : trim (trim s) = trim s.
Proof.
  unfold trim. destruct (trimStart_head s) as [E | (c & rest & E & Hc)]; rewrite E.
  - reflexivity.
  - destruct (trimEnd_keeps_head c rest Hc) as [kept K]. rewrite K.
    cbn [trimStart]. rewrite Hc, <- K. apply trimEnd_idempotent.
Qed.

(** ** Lookups and saves *)

Lemma findOne_lookup (db : Db) (id school : ObjectId) (activeOnly : bool)
    (item : Inventory.doc) :
  findOne db id school activeOnly = Some item -> inventories db !! id = Some item.
Proof.
  unfold findOne. destruct (inventories db !! id) as [found|]; [|discriminate].
  destruct (_ && _); [congruence | discriminate].
Qed.

Lemma nonNegative_insert (db : Db) (id : ObjectId) (item : Inventory.doc)
    (log : list Transaction.doc) :
  nonNegative db -> 0 <= Inventory.quantity item ->
  nonNegative (mkDb (<[id := item]> (inventories db)) log).
Proof.
  intros Hdb Hq id' item'. simpl. rewrite lookup_insert.
  case_decide; intros Hlook.
  - now inversion Hlook; subst.
  - eauto.
Qed.

Lemma nonNegative_log (db : Db) (log : list Transaction.doc) :
  nonNegative db -> nonNegative (mkDb (inventories db) log).
Proof. intros Hdb id item. simpl. apply Hdb. Qed.

Lemma quantityValid_le (q : Z) : Inventory.quantityValid q = true <-> 0 <= q.
Proof. unfold Inventory.quantityValid. apply Z.leb_le. Qed.

Lemma inventoryValid_quantity (item : Inventory.doc) :
  inventoryValid item = true -> 0 <= Inventory.quantity item.
Proof.
  unfold inventoryValid. rewrite !andb_true_iff.
  intros [[[_ _] Hq] _]. now apply quantityValid_le.
Qed.

Lemma saveBoth_nonNegative (db : Db) (id : ObjectId) (item : Inventory.doc)
    (t : Transaction.doc) :
  nonNegative db -> nonNegative (saveBoth db id item t).2.
Proof.
  intros Hdb. unfold saveBoth.
  destruct (Inventory.quantityValid (Inventory.quantity item)) eqn:Hq;
    destruct (Transaction.valid t); simpl;
    first [ apply nonNegative_insert; [exact Hdb | now apply quantityValid_le]
          | now apply nonNegative_log ].
Qed.

(** ** The threshold classifier *)

(** C3 — The stock status is a function of the quantity and the two
    thresholds alone, decided by the first rule that applies: quantity
    <= 0 is out-of-stock; else quantity <= minThreshold is low-stock;
    else quantity >= maxThreshold is overstock; else in-stock.  The
    result is always one of the four statuses, whatever the order of the
    thresholds, and the four sample points classify as listed. *)
Theorem classifyStock_priority (quantity minThreshold maxThreshold : Z) :
  (forall this,
      Inventory.quantity this = quantity ->
      Inventory.minThreshold this = minThreshold ->
      Inventory.maxThreshold this = maxThreshold ->
      Inventory.stockStatus this
      = Inventory.classifyStock quantity minThreshold maxThreshold)
  /\ (quantity <= 0 ->
      Inventory.classifyStock quantity minThreshold maxThreshold = "out-of-stock")
  /\ (0 < quantity -> quantity <= minThreshold ->
      Inventory.classifyStock quantity minThreshold maxThreshold = "low-stock")
  /\ (0 < quantity -> minThreshold < quantity -> maxThreshold <= quantity ->
      Inventory.classifyStock quantity minThreshold maxThreshold = "overstock")
  /\ (0 < quantity -> minThreshold < quantity -> quantity < maxThreshold ->
      Inventory.classifyStock quantity minThreshold maxThreshold = "in-stock")
  /\ In (Inventory.classifyStock quantity minThreshold maxThreshold)
        ["out-of-stock"; "low-stock"; "overstock"; "in-stock"]
  /\ NoDup ["out-of-stock"; "low-stock"; "overstock"; "in-stock"]
  /\ Inventory.classifyStock 0 5 100 = "out-of-stock"
  /\ Inventory.classifyStock 5 5 100 = "low-stock"
  /\ Inventory.classifyStock 50 5 100 = "in-stock"
  /\ Inventory.classifyStock 100 5 100 = "overstock".
Proof.
  unfold Inventory.stockStatus, Inventory.classifyStock.
  repeat split; try reflexivity.
  - intros this -> -> ->. reflexivity.
  - intros H. destruct (Z.leb_spec quantity 0); [reflexivity | lia].
  - intros H1 H2. destruct (Z.leb_spec quantity 0); [lia|].
    destruct (Z.leb_spec quantity minThreshold); [reflexivity | lia].
  - intros H1 H2 H3. destruct (Z.leb_spec quantity 0); [lia|].
    destruct (Z.leb_spec quantity minThreshold); [lia|].
    destruct (Z.geb_spec quantity maxThreshold); [reflexivity | lia].
  - intros H1 H2 H3. destruct (Z.leb_spec quantity 0); [lia|].
    destruct (Z.leb_spec quantity minThreshold); [lia|].
    destruct (Z.geb_spec quantity maxThreshold); [lia | reflexivity].
  - destruct (quantity <=? 0); [now left|].
    destruct (quantity <=? minThreshold); [now right; left|].
    destruct (quantity >=? maxThreshold); [now right; right; left|].
    now right; right; right; left.
  - repeat constructor; rewrite ?list_elem_of_In; simpl; intuition discriminate.
Qed.

(** With the thresholds crossed (minThreshold above maxThreshold) the
    low-stock rule still wins over the overstock rule. *)
Example classifyStock_crossed :
  Inventory.classifyStock 50 80 20 = "low-stock"
  /\ Inventory.classifyStock 90 80 20 = "overstock"
  /\ Inventory.classifyStock 0 80 20 = "out-of-stock".
Proof. repeat split. Qed.

(** ** Non-negative quantities *)

Section Steps.

Variable isMongoId : string -> bool.

Lemma createTransaction_nonNegative user body db :
  nonNegative db -> nonNegative (createTransaction user body db).2.
Proof.
  intros Hdb. unfold createTransaction.
  destruct (findOne _ _ _ _); [|exact Hdb].
  destruct (switchType _ _ _); [|exact Hdb].
  now apply saveBoth_nonNegative.
Qed.

Lemma createInventory_nonNegative itemId user body db :
  nonNegative db -> nonNegative (createInventory itemId user body db).2.
Proof.
  intros Hdb. unfold createInventory.
  destruct (newInventory user body) as [item|]; [|exact Hdb].
  destruct (inventories db !! itemId); [exact Hdb|].
  destruct (inventoryValid item) eqn:Hv; [|exact Hdb].
  apply inventoryValid_quantity in Hv.
  destruct (0 <? Inventory.quantity item);
    [destruct (Transaction.valid _)|]; simpl;
    now apply nonNegative_insert.
Qed.

Lemma updateInventory_nonNegative itemId user body db :
  nonNegative db -> nonNegative (updateInventory itemId user body db).2.
Proof.
  intros Hdb. unfold updateInventory.
  destruct (findOne _ _ _ _) as [found|]; [|exact Hdb].
  destruct (inventoryValid (assign found body)) eqn:Hv; [|exact Hdb].
  apply inventoryValid_quantity in Hv.
  destruct (negb _); [destruct (Transaction.valid _)|]; simpl;
    now apply nonNegative_insert.
Qed.

Lemma deleteInventory_nonNegative itemId user db :
  nonNegative db -> nonNegative (deleteInventory itemId user db).2.
Proof.
  intros Hdb. unfold deleteInventory.
  destruct (findOne _ _ _ _) as [found|] eqn:Hf; [|exact Hdb].
  apply findOne_lookup in Hf. simpl.
  apply nonNegative_insert; [exact Hdb|]. simpl. eauto.
Qed.

Lemma handle_nonNegative user request db :
  nonNegative db -> nonNegative (handle isMongoId user request db).2.
Proof.
  intros Hdb. destruct request; simpl.
  - unfold postInventory. destruct (validateInventory _); [|exact Hdb].
    now apply createInventory_nonNegative.
  - unfold putInventory. destruct (validateInventory _); [|exact Hdb].
    now apply updateInventory_nonNegative.
  - now apply deleteInventory_nonNegative.
  - unfold postTransaction. destruct (validateTransaction _ _); [|exact Hdb].
    now apply createTransaction_nonNegative.
Qed.

End Steps.

(** C1 — Starting from a database in which no item has a negative
    quantity, every request that writes to the ledger (item creation,
    check-in, check-out, adjustment, direct update, soft delete), and so
    every sequence of them, leaves every item with a quantity >= 0. *)
Theorem quantity_never_negative (isMongoId : string -> bool)
    (user : User) (request : Request) (requests : list (User * Request))
    (db : Db) :
  nonNegative db ->
  nonNegative (handle isMongoId user request db).2
  /\ nonNegative (run isMongoId requests db).
Proof.
  intros Hdb. split; [now apply handle_nonNegative|].
  revert db Hdb. induction requests as [|[u r] rest IH]; intros db Hdb; simpl.
  - exact Hdb.
  - apply IH. now apply handle_nonNegative.
Qed.

Lemma nonNegative_empty : nonNegative (mkDb ∅ []).
Proof. intros id item Hlook. simpl in Hlook. now rewrite lookup_empty in Hlook. Qed.

Lemma quantity_never_negative_witness :
  nonNegative (handle hex24 staff (PostInventory pencilsId (newPencils 10)) (mkDb ∅ [])).2
  /\ nonNegative
       (run hex24
            [(staff, PostInventory pencilsId (newPencils 10));
             (staff, PostTransaction (move "check-out" 4 None));
             (staff, PostTransaction (move "adjustment" 2 None));
             (staff, PutInventory pencilsId (newPencils 0));
             (staff, PostTransaction (move "check-in" 7 None));
             (staff, DeleteInventory pencilsId)]
            (mkDb ∅ [])).
Proof.
  exact (quantity_never_negative hex24 _ _ _ _ nonNegative_empty).
Defined.

(** ** The bookkeeping equation *)

Lemma switchType_balanced (type : string) (previousQuantity quantity n d : Z) :
  switchType type previousQuantity quantity = Quantities n d ->
  previousQuantity + d = n
  /\ (1 <= quantity -> 0 <= previousQuantity -> 0 <= n).
Proof.
  unfold switchType.
  destruct (String.eqb type "check-in");
    [|destruct (String.eqb type "check-out");
      [destruct (Z.ltb_spec previousQuantity quantity)
      |destruct (String.eqb type "adjustment")]];
    intros E; inversion E; subst; lia.
Qed.

Lemma validateTransaction_quantity (isMongoId : string -> bool) body :
  validateTransaction isMongoId body = true -> 1 <= TransactionBody.quantity body.
Proof.
  unfold validateTransaction. rewrite !andb_true_iff.
  intros [[_ Hq] _]. now apply Z.leb_le.
Qed.

(** C4 (code bug) — The validator accepts the JSON string "5" as a
    quantity and nothing converts it, so the check-in adds it to the
    item's quantity as text: on an item holding 4 the request succeeds
    (201), the item is saved with quantity 45 and the one transaction
    recorded has quantity 5, previousQuantity 4 and newQuantity 45, so
    that previousQuantity + quantity = newQuantity fails for it. *)
Theorem checkin_of_string_quantity_unbalanced :
  validateTransactionJs hex24 (moveJs "check-in" (JStr "5") None) = true
  /\ postTransactionJs hex24 staff (moveJs "check-in" (JStr "5") None) (stockroom 4)
     = (mkResponse 201 "Transaction created successfully"
          (TransactionPayload
             (Transaction.mk "check-in" pencilsId lincolnId staffId 5 4 45
                (Some "recount") 0%Q)),
        mkDb (<[pencilsId := pencils 45]> (inventories (stockroom 4)))
             [Transaction.mk "check-in" pencilsId lincolnId staffId 5 4 45
                (Some "recount") 0%Q])
  /\ ~ balanced (Transaction.mk "check-in" pencilsId lincolnId staffId 5 4 45
                   (Some "recount") 0%Q).
Proof.
  split; [reflexivity|]. split; [reflexivity|].
  unfold balanced. simpl. lia.
Qed.

(** ** The transaction route *)

Section PostTransaction.

Variable isMongoId : string -> bool.
Variables (user : User) (body : TransactionBody.t) (db : Db).
Variable item : Inventory.doc.

Hypothesis validated : validateTransaction isMongoId body = true.
Hypothesis found :
  findOne db (TransactionBody.inventory body) (user_school user) true = Some item.

Lemma validated_type_in_enum :
  existsb (String.eqb (TransactionBody.type body)) Transaction.enum = true.
Proof.
  revert validated. unfold validateTransaction, Transaction.enum.
  rewrite !andb_true_iff. tauto.
Qed.

(** The switch left the handler early: nothing is written. *)
Lemma postTransaction_rejected response :
  switchType (TransactionBody.type body) (Inventory.quantity item)
             (TransactionBody.quantity body) = Rejected response ->
  postTransaction isMongoId user body db = (response, db).
Proof.
  intros Hs. unfold postTransaction, createTransaction. rewrite validated.
  cbn [sanitizeTransaction TransactionBody.inventory TransactionBody.type
       TransactionBody.quantity].
  now rewrite found, Hs.
Qed.

(** The switch computed the two quantities: the item is written, and
    the transaction is written when its cost passes the schema. *)
Lemma postTransaction_committed n d :
  switchType (TransactionBody.type body) (Inventory.quantity item)
             (TransactionBody.quantity body) = Quantities n d ->
  0 <= n ->
  postTransaction isMongoId user body db
  = (if costAccepted body
     then created (newTransaction user (sanitizeTransaction body) d
                                  (Inventory.quantity item) n)
     else mkResponse 500 "Failed to create transaction" NoPayload,
     mkDb (<[TransactionBody.inventory body := Inventory.setQuantity n item]>
             (inventories db))
          (transactions db
           ++ if costAccepted body
              then [newTransaction user (sanitizeTransaction body) d
                                   (Inventory.quantity item) n]
              else [])%list).
Proof.
  intros Hs Hn. unfold postTransaction, createTransaction. rewrite validated.
  cbn [sanitizeTransaction TransactionBody.inventory TransactionBody.type
       TransactionBody.quantity].
  rewrite found, Hs. unfold saveBoth.
  cbn [Inventory.setQuantity Inventory.quantity].
  apply quantityValid_le in Hn. rewrite Hn.
  unfold Transaction.valid.
  cbn [newTransaction sanitizeTransaction Transaction.type Transaction.cost
       TransactionBody.type TransactionBody.cost].
  rewrite validated_type_in_enum. unfold costAccepted.
  destruct (Qle_bool 0 (default 0%Q (TransactionBody.cost body)));
    simpl; [reflexivity|]. now rewrite app_nil_r.
Qed.

End PostTransaction.




Lemma switchType_transfer (previousQuantity quantity : Z) :
  switchType "transfer" previousQuantity quantity = Rejected invalidType.
Proof. reflexivity. Qed.

(** ** The request as it arrives, and its reading as numbers *)














(** The scenario of an item holding 4: checking out 3 leaves 1 and
    records the delta -3. *)
Example checkout_three_of_four :
  inventories (postTransaction hex24 staff (move "check-out" 3 None) (stockroom 4)).2
    !! pencilsId = Some (pencils 1)
  /\ transactions (postTransaction hex24 staff (move "check-out" 3 None) (stockroom 4)).2
     = [Transaction.mk "check-out" pencilsId lincolnId staffId (-3) 4 1
          (Some "recount") 0%Q].
Proof. split; vm_compute; reflexivity. Qed.




(** C6, as stated, fails: a check-in of 5 with cost -1 on an item
    holding 4 writes the item (now 9) while the transaction, refused by
    the schema's [min: 0] on cost, is not written; the response is the
    500 failure. *)
Lemma item_written_without_transaction :
  validateTransaction hex24 (move "check-in" 5 (Some (-1 # 1)%Q)) = true
  /\ inventories
       (postTransaction hex24 staff (move "check-in" 5 (Some (-1 # 1)%Q)) (stockroom 4)).2
       !! pencilsId = Some (pencils 9)
  /\ transactions
       (postTransaction hex24 staff (move "check-in" 5 (Some (-1 # 1)%Q)) (stockroom 4)).2
     = transactions (stockroom 4)
  /\ (postTransaction hex24 staff (move "check-in" 5 (Some (-1 # 1)%Q)) (stockroom 4)).1
     = mkResponse 500 "Failed to create transaction" NoPayload.
Proof. repeat split; vm_compute; reflexivity. Qed.

(** C6 (amended) — For a validated request on an item the handler finds,
    once the switch has computed the quantities, the two saves are
    independent and nothing is rolled back.  The item's new quantity is
    always written.  When the transaction's cost passes the schema both
    writes land (the response is 201 and exactly the paired record is
    appended); when it does not, the record is not appended, the item
    keeps its new quantity and the response is the 500 failure. *)
Theorem saves_are_independent (isMongoId : string -> bool)
    (user : User) (body : TransactionBody.t) (db : Db) (item : Inventory.doc)
    (newQuantity delta : Z) :
  nonNegative db ->
  validateTransaction isMongoId body = true ->
  findOne db (TransactionBody.inventory body) (user_school user) true = Some item ->
  switchType (TransactionBody.type body) (Inventory.quantity item)
             (TransactionBody.quantity body) = Quantities newQuantity delta ->
  let t := newTransaction user (sanitizeTransaction body) delta
             (Inventory.quantity item) newQuantity in
  inventories (postTransaction isMongoId user body db).2
  = <[TransactionBody.inventory body := Inventory.setQuantity newQuantity item]>
      (inventories db)
  /\ (costAccepted body = true ->
      (postTransaction isMongoId user body db).1
      = mkResponse 201 "Transaction created successfully" (TransactionPayload t)
      /\ transactions (postTransaction isMongoId user body db).2
         = (transactions db ++ [t])%list)
  /\ (costAccepted body = false ->
      (postTransaction isMongoId user body db).1
      = mkResponse 500 "Failed to create transaction" NoPayload
      /\ transactions (postTransaction isMongoId user body db).2 = transactions db).
Proof.
  intros Hdb Hv Hf Hs.
  destruct (switchType_balanced _ _ _ _ _ Hs) as [_ Hpos].
  specialize (Hpos (validateTransaction_quantity _ _ Hv)
                   (Hdb _ _ (findOne_lookup _ _ _ _ _ Hf))).
  rewrite (postTransaction_committed isMongoId user body db item Hv Hf _ _ Hs Hpos).
  simpl. split; [reflexivity|].
  split; intros Hc; rewrite Hc; [now split|]. split; [reflexivity|].
  apply app_nil_r.
Qed.

Lemma stockroom_nonNegative (quantity : Z) : 0 <= quantity -> nonNegative (stockroom quantity).
Proof.
  intros Hq id item Hlook. unfold stockroom in Hlook. simpl in Hlook.
  apply lookup_singleton_Some in Hlook as [_ <-]. exact Hq.
Qed.

Lemma saves_are_independent_witness :
  (postTransaction hex24 staff (move "check-in" 5 None) (stockroom 4)).1
  = mkResponse 201 "Transaction created successfully"
      (TransactionPayload
         (Transaction.mk "check-in" pencilsId lincolnId staffId 5 4 9
            (Some "recount") 0%Q))
  /\ transactions (postTransaction hex24 staff (move "check-in" 5 None) (stockroom 4)).2
     = [Transaction.mk "check-in" pencilsId lincolnId staffId 5 4 9
          (Some "recount") 0%Q].
Proof.
  assert (H4 : 0 <= 4) by lia.
  exact (proj1 (proj2 (saves_are_independent hex24 staff (move "check-in" 5 None)
                         (stockroom 4) (pencils 4) 9 5
                         (stockroom_nonNegative 4 H4) eq_refl eq_refl eq_refl))
               eq_refl).
Defined.




(** C10 — A request of type "transfer" passes the validator when its
    other fields do (the type is in the accepted list), and the handler
    never writes for it: the database is unchanged, and when the item is
    found the response is the 400 Invalid transaction type failure. *)
Theorem transfer_always_rejected (isMongoId : string -> bool)
    (user : User) (body : TransactionBody.t) (db : Db) :
  TransactionBody.type body = "transfer" ->
  isMongoId (TransactionBody.inventory body) = true ->
  1 <= TransactionBody.quantity body ->
  optional (fun r => strlen (trim r) <=? 500) (TransactionBody.reason body) = true ->
  validateTransaction isMongoId body = true
  /\ In "transfer" Transaction.enum
  /\ (postTransaction isMongoId user body db).2 = db
  /\ (forall item,
        findOne db (TransactionBody.inventory body) (user_school user) true = Some item ->
        (postTransaction isMongoId user body db).1
        = mkResponse 400 "Invalid transaction type" NoPayload)
  /\ (findOne db (TransactionBody.inventory body) (user_school user) true = None ->
      (postTransaction isMongoId user body db).1
      = mkResponse 404 "Inventory item not found" NoPayload).
Proof.
  intros Htype Hid Hq Hr.
  assert (Hv : validateTransaction isMongoId body = true).
  { unfold validateTransaction. rewrite Htype, Hid, Hr.
    apply Z.leb_le in Hq. now rewrite Hq. }
  pose proof (fun p => switchType_transfer p (TransactionBody.quantity body)) as Hs.
  rewrite <- Htype in Hs.
  split; [exact Hv|]. split; [simpl; tauto|].
  destruct (findOne db (TransactionBody.inventory body) (user_school user) true)
    as [item|] eqn:Hf.
  - rewrite (postTransaction_rejected isMongoId user body db item Hv Hf _ (Hs _)).
    simpl. split; [reflexivity|]. split; [reflexivity | discriminate].
  - unfold postTransaction, createTransaction. rewrite Hv.
    cbn [sanitizeTransaction TransactionBody.inventory]. rewrite Hf.
    simpl. split; [reflexivity|]. split; [discriminate | reflexivity].
Qed.

Lemma transfer_always_rejected_witness :
  validateTransaction hex24 (move "transfer" 2 None) = true
  /\ postTransaction hex24 staff (move "transfer" 2 None) (stockroom 4)
     = (mkResponse 400 "Invalid transaction type" NoPayload, stockroom 4).
Proof.
  assert (H1 : 1 <= TransactionBody.quantity (move "transfer" 2 None))
    by (simpl; lia).
  destruct (transfer_always_rejected hex24 staff (move "transfer" 2 None)
              (stockroom 4) eq_refl eq_refl H1 eq_refl)
    as (Hv & _ & Hdb & Hresp & _).
  split; [exact Hv|].
  rewrite (surjective_pairing (postTransaction _ _ _ _)).
  now rewrite Hdb, (Hresp (pencils 4) eq_refl).
Defined.

(** ** Item creation *)

Lemma orZero_accepted (c : Q) : Qle_bool 0 c = true -> Qle_bool 0 (orZero c) = true.
Proof. intros Hc. unfold orZero. now destruct (Qeq_bool c 0). Qed.

Lemma optional_cost_accepted (cost : option Q) :
  optional (Qle_bool 0) cost = true -> Qle_bool 0 (default 0%Q cost) = true.
Proof. destruct cost; simpl; [tauto | reflexivity]. Qed.

Lemma validated_inventory_saves (user : User) (body : InventoryBody.t)
    (category : ObjectId) :
  validateInventory body = true ->
  InventoryBody.category body = Some category ->
  exists item,
    newInventory user (sanitizeInventory body) = Some item
    /\ Inventory.quantity item = InventoryBody.quantity body
    /\ 0 <= InventoryBody.quantity body
    /\ inventoryValid item = true
    /\ Qle_bool 0 (Inventory.cost item) = true.
Proof.
  unfold validateInventory. rewrite !andb_true_iff.
  intros [[[[Hname Hq] Hunit] _] Hcost] Hcat.
  apply optional_cost_accepted in Hcost.
  unfold newInventory, sanitizeInventory. cbn [InventoryBody.category].
  rewrite Hcat. eexists. split; [reflexivity|].
  cbn [Inventory.quantity InventoryBody.quantity Inventory.cost InventoryBody.cost].
  split; [reflexivity|]. split; [now apply Z.leb_le|]. split; [|exact Hcost].
  unfold inventoryValid, Inventory.quantityValid, Inventory.costValid.
  cbn [Inventory.name Inventory.unit_ Inventory.quantity Inventory.cost
       InventoryBody.name InventoryBody.unit_ InventoryBody.quantity
       InventoryBody.cost].
  now rewrite trim_idempotent, Hname, Hunit, Hq, Hcost.
Qed.

(** C7, as stated, fails on the reason: the transaction that creating an
    item with quantity 10 appends carries the reason "Initial stock",
    which is not the string "initial stock". *)
Lemma initial_stock_reason_is_capitalised :
  map Transaction.reason
      (transactions (postInventory pencilsId staff (newPencils 10) (mkDb ∅ [])).2)
  = [Some "Initial stock"]
  /\ String.eqb "Initial stock" "initial stock" = false.
Proof. split; vm_compute; reflexivity. Qed.

(** C7 (amended) — Creating an item (a validated body with a category,
    under a fresh _id) with quantity q > 0 appends exactly one
    transaction: a check-in for the new item with previousQuantity 0,
    newQuantity q, delta q and reason "Initial stock"; creating it with
    quantity 0 appends none.  Either way the item is stored with
    quantity q and the response is 201. *)
Theorem initial_stock_transaction (itemId : ObjectId) (user : User)
    (body : InventoryBody.t) (db : Db) (category : ObjectId) :
  validateInventory body = true ->
  InventoryBody.category body = Some category ->
  inventories db !! itemId = None ->
  status (postInventory itemId user body db).1 = 201
  /\ (exists item,
        inventories (postInventory itemId user body db).2
        = <[itemId := item]> (inventories db)
        /\ Inventory.quantity item = InventoryBody.quantity body)
  /\ (0 < InventoryBody.quantity body ->
      exists t,
        transactions (postInventory itemId user body db).2
        = (transactions db ++ [t])%list
        /\ Transaction.type t = "check-in"
        /\ Transaction.inventory t = itemId
        /\ Transaction.previousQuantity t = 0
        /\ Transaction.newQuantity t = InventoryBody.quantity body
        /\ Transaction.quantity t = InventoryBody.quantity body
        /\ Transaction.reason t = Some "Initial stock")
  /\ (InventoryBody.quantity body = 0 ->
      transactions (postInventory itemId user body db).2 = transactions db).
Proof.
  intros Hv Hcat Hfresh.
  destruct (validated_inventory_saves user body category Hv Hcat)
    as (item & Hnew & Hq & Hpos & Hvalid & Hcost).
  unfold postInventory, createInventory. rewrite Hv, Hnew, Hfresh, Hvalid.
  unfold Transaction.valid. cbn [initialStock Transaction.type Transaction.cost].
  rewrite (orZero_accepted _ Hcost). rewrite Hq.
  destruct (Z.ltb_spec 0 (InventoryBody.quantity body)) as [Hlt|Hle]; simpl.
  - split; [reflexivity|]. split; [now exists item|]. split; [|lia].
    intros _. eexists. split; [reflexivity|]. simpl. rewrite Hq. now repeat split.
  - split; [reflexivity|]. split; [now exists item|]. split; [lia|]. reflexivity.
Qed.

Lemma initial_stock_transaction_witness :
  (exists t,
     transactions (postInventory pencilsId staff (newPencils 10) (mkDb ∅ [])).2
     = [t]
     /\ Transaction.type t = "check-in"
     /\ Transaction.inventory t = pencilsId
     /\ Transaction.previousQuantity t = 0
     /\ Transaction.newQuantity t = 10
     /\ Transaction.quantity t = 10
     /\ Transaction.reason t = Some "Initial stock")
  /\ transactions (postInventory pencilsId staff (newPencils 0) (mkDb ∅ [])).2 = [].
Proof.
  split.
  - apply (initial_stock_transaction pencilsId staff (newPencils 10) (mkDb ∅ [])
             suppliesId eq_refl eq_refl (lookup_empty _)).
    simpl. lia.
  - apply (initial_stock_transaction pencilsId staff (newPencils 0) (mkDb ∅ [])
             suppliesId eq_refl eq_refl (lookup_empty _)).
    reflexivity.
Defined.

(** ** The category report *)

Lemma divide_by_count (total : Q) (count : Z) :
  1 <= count -> divide total (inject_Z count) = Some (total / inject_Z count)%Q.
Proof.
  intros Hc. unfold divide.
  destruct (Qeq_bool (inject_Z count) 0) eqn:E; [|reflexivity].
  apply Qeq_bool_iff in E. unfold Qeq in E. simpl in E. lia.
Qed.

Section Rollup.

(** A property of category ids that every input item's category has. *)
Variable R : ObjectId -> Prop.

Lemma addToGroups_ok item groups :
  R (Inventory.category item) ->
  Forall (groupOk R) groups -> Forall (groupOk R) (addToGroups item groups).
Proof.
  intros Hitem. induction 1 as [|g rest Hg Hrest IH]; simpl.
  - constructor; [|constructor]. split; [simpl; lia | exact Hitem].
  - destruct (String.eqb (Group._id g) (Inventory.category item)).
    + constructor; [|exact Hrest]. destruct Hg as [Hc Hr].
      split; [simpl; lia | exact Hr].
    + constructor; assumption.
Qed.

Lemma fold_groups_ok items groups :
  (forall item, In item items -> R (Inventory.category item)) ->
  Forall (groupOk R) groups ->
  Forall (groupOk R) (fold_left (fun gs item => addToGroups item gs) items groups).
Proof.
  revert groups. induction items as [|item rest IH]; intros groups Hall Hg; simpl.
  - exact Hg.
  - apply IH.
    + intros i Hi. apply Hall. now right.
    + apply addToGroups_ok; [|exact Hg]. apply Hall. now left.
Qed.

Lemma projectAll_ok categories groups :
  Forall (groupOk R) groups ->
  exists rows, projectAll categories groups = Some rows /\ Forall (rowOk R) rows.
Proof.
  induction 1 as [|g rest [Hc Hr] _ (more & Hmore & Hok)]; simpl.
  - exists []. split; [reflexivity | constructor].
  - unfold projectStage. rewrite Hmore.
    destruct (categories !! Group._id g) as [category|].
    + rewrite (divide_by_count _ _ Hc). eexists. split; [reflexivity|].
      constructor; [|exact Hok]. repeat split; assumption.
    + exists more. split; [reflexivity | exact Hok].
Qed.

Lemma insertByValue_ok row sorted :
  rowOk R row -> Forall (rowOk R) sorted -> Forall (rowOk R) (insertByValue row sorted).
Proof.
  intros Hrow. induction 1 as [|r rest Hr Hrest IH]; simpl.
  - constructor; [exact Hrow | constructor].
  - destruct (Qle_bool _ _); constructor; try assumption.
    constructor; assumption.
Qed.

Lemma sortStage_ok rows : Forall (rowOk R) rows -> Forall (rowOk R) (sortStage rows).
Proof.
  induction 1 as [|row rest Hrow _ IH]; simpl; [constructor|].
  now apply insertByValue_ok.
Qed.

End Rollup.

(** C9, as stated, fails on its last part: a category with no item
    yields no row at all, so no row with averageValue 0. *)
Lemma empty_category_yields_no_row :
  supplies !! suppliesId = Some (mkCategory "Supplies" "#3B82F6")
  /\ categoryStats lincolnId supplies [] = Some [].
Proof. split; [apply lookup_singleton_eq | reflexivity]. Qed.

(** C9 (amended) — The category report never fails on its division: for
    every collection of items the aggregate returns its rows, and every
    row has an item count of at least 1, the averageValue totalValue /
    itemCount, and stands for a category that at least one active item of
    the school belongs to.  A category without such an item yields no
    row. *)
Theorem category_average_defined (schoolId : ObjectId)
    (categories : gmap string Category) (items : list Inventory.doc) :
  exists rows,
    categoryStats schoolId categories items = Some rows
    /\ Forall
         (fun row =>
            1 <= CategoryStat.itemCount row
            /\ CategoryStat.averageValue row
               = (CategoryStat.totalValue row
                  / inject_Z (CategoryStat.itemCount row))%Q
            /\ exists item,
                 In item items
                 /\ Inventory.school item = schoolId
                 /\ Inventory.isActive item = true
                 /\ Inventory.category item = CategoryStat._id row)
         rows.
Proof.
  set (R := fun id : ObjectId =>
              exists item,
                In item items /\ Inventory.school item = schoolId
                /\ Inventory.isActive item = true /\ Inventory.category item = id).
  assert (Hgroups : Forall (groupOk R) (groupStage (matchStage schoolId items))).
  { apply fold_groups_ok; [|constructor].
    intros item Hin. apply filter_In in Hin as [Hin Hm].
    apply andb_true_iff in Hm as [Hs Ha]. apply String.eqb_eq in Hs.
    now exists item. }
  destruct (projectAll_ok R categories _ Hgroups) as (rows & Hrows & Hok).
  exists (sortStage rows). unfold categoryStats. rewrite Hrows.
  split; [reflexivity|]. exact (sortStage_ok R rows Hok).
Qed.

(** Two active items of one category: one row, averaging the total value
    15 over the 2 items. *)
Example category_of_two_items :
  option_map (map (fun row => (CategoryStat.itemCount row,
                               CategoryStat.totalQuantity row,
                               Qred (CategoryStat.totalValue row),
                               Qred (CategoryStat.averageValue row))))
             (categoryStats lincolnId supplies [pencils 4; pencils 6])
  = Some [(2, 10, (15 # 1)%Q, (15 # 2)%Q)].
Proof. vm_compute. reflexivity. Qed.

(** * Further properties of the routes *)

(** ** The log replays to the stored quantities *)









Lemma inventoryValid_cost (item : Inventory.doc) :
  inventoryValid item = true -> Qle_bool 0 (orZero (Inventory.cost item)) = true.
Proof.
  unfold inventoryValid, Inventory.costValid. rewrite !andb_true_iff.
  intros [_ Hc]. now apply orZero_accepted.
Qed.












(** ** The shape of a write *)

Lemma findOne_school (db : Db) (id school : ObjectId) (activeOnly : bool)
    (item : Inventory.doc) :
  findOne db id school activeOnly = Some item -> Inventory.school item = school.
Proof.
  unfold findOne. destruct (inventories db !! id) as [found|]; [|discriminate].
  destruct (String.eqb_spec (Inventory.school found) school) as [Hs|Hs]; simpl;
    [|discriminate].
  destruct (_ || _); [congruence | discriminate].
Qed.

Lemma switchType_written (type : string) (previousQuantity quantity n d : Z) :
  switchType type previousQuantity quantity = Quantities n d ->
  type = "check-in" \/ type = "check-out" \/ type = "adjustment".
Proof.
  unfold switchType.
  destruct (String.eqb_spec type "check-in"); [tauto|].
  destruct (String.eqb_spec type "check-out"); [tauto|].
  destruct (String.eqb_spec type "adjustment"); [tauto | discriminate].
Qed.

Lemma writes_one (user : User) (db : Db) (id : ObjectId) (item : Inventory.doc)
    (new : list Transaction.doc) :
  (length new <= 1)%nat ->
  Inventory.school item = user_school user ->
  (forall old, inventories db !! id = Some old ->
               Inventory.school old = user_school user) ->
  Forall (fun t =>
            Transaction.inventory t = id
            /\ Transaction.school t = user_school user
            /\ Transaction.user t = user_id user
            /\ writtenType t)
         new ->
  writes user db (mkDb (<[id := item]> (inventories db)) (transactions db ++ new)).
Proof. intros. right. exists id, item, new. simpl. auto 10. Qed.

Lemma createTransaction_writes user body db :
  writes user db (createTransaction user body db).2.
Proof.
  unfold createTransaction.
  destruct (findOne _ _ _ _) as [item|] eqn:Hf; [|now left].
  destruct (switchType _ _ _) as [n d|] eqn:Hs; [|now left].
  pose proof (findOne_school _ _ _ _ _ Hf) as Hschool.
  pose proof (findOne_lookup _ _ _ _ _ Hf) as Hlook.
  apply switchType_written in Hs.
  assert (Hold : forall old,
             inventories db !! TransactionBody.inventory body = Some old ->
             Inventory.school old = user_school user) by (intros old; congruence).
  assert (Ht : Forall (fun t =>
                 Transaction.inventory t = TransactionBody.inventory body
                 /\ Transaction.school t = user_school user
                 /\ Transaction.user t = user_id user
                 /\ writtenType t)
                [newTransaction user body d (Inventory.quantity item) n])
    by (constructor; [repeat split; exact Hs | constructor]).
  unfold saveBoth.
  destruct (Inventory.quantityValid _); destruct (Transaction.valid _); cbn [snd].
  - apply writes_one; simpl; auto.
  - rewrite <- (app_nil_r (transactions db)).
    apply writes_one; simpl; auto.
  - rewrite <- (insert_id (inventories db) _ _ Hlook).
    apply writes_one; simpl; auto.
  - left. now destruct db.
Qed.

Lemma createInventory_writes itemId user body db :
  writes user db (createInventory itemId user body db).2.
Proof.
  unfold createInventory.
  destruct (newInventory user body) as [item|] eqn:Hnew; [|now left].
  destruct (inventories db !! itemId) eqn:Hfresh; [now left|].
  destruct (inventoryValid item); [|now left].
  assert (Hschool : Inventory.school item = user_school user).
  { unfold newInventory in Hnew. destruct (InventoryBody.category body);
      inversion Hnew; reflexivity. }
  assert (Hold : forall old, inventories db !! itemId = Some old ->
                             Inventory.school old = user_school user)
    by (intros old; congruence).
  destruct (0 <? Inventory.quantity item); [destruct (Transaction.valid _)|]; cbn [snd inventories transactions].
  - apply writes_one; simpl; auto.
    constructor; [repeat split; now left | constructor].
  - rewrite <- (app_nil_r (transactions db)). apply writes_one; simpl; auto.
  - rewrite <- (app_nil_r (transactions db)). apply writes_one; simpl; auto.
Qed.

Lemma updateInventory_writes itemId user body db :
  writes user db (updateInventory itemId user body db).2.
Proof.
  unfold updateInventory.
  destruct (findOne _ _ _ _) as [found|] eqn:Hf; [|now left].
  destruct (inventoryValid _); [|now left].
  pose proof (findOne_school _ _ _ _ _ Hf) as Hschool.
  pose proof (findOne_lookup _ _ _ _ _ Hf) as Hlook.
  assert (Hold : forall old, inventories db !! itemId = Some old ->
                             Inventory.school old = user_school user)
    by (intros old; congruence).
  destruct (negb _); [destruct (Transaction.valid _)|]; cbn [snd inventories transactions].
  - apply writes_one; simpl; auto.
    constructor; [repeat split; now right; right | constructor].
  - rewrite <- (app_nil_r (transactions db)). apply writes_one; simpl; auto.
  - rewrite <- (app_nil_r (transactions db)). apply writes_one; simpl; auto.
Qed.

Lemma deleteInventory_writes itemId user db :
  writes user db (deleteInventory itemId user db).2.
Proof.
  unfold deleteInventory.
  destruct (findOne _ _ _ _) as [found|] eqn:Hf; [|now left].
  pose proof (findOne_school _ _ _ _ _ Hf) as Hschool.
  pose proof (findOne_lookup _ _ _ _ _ Hf) as Hlook.
  cbn [snd]. rewrite <- (app_nil_r (transactions db)).
  apply writes_one; simpl; auto. intros old; congruence.
Qed.

Lemma handle_writes (isMongoId : string -> bool) user request db :
  writes user db (handle isMongoId user request db).2.
Proof.
  destruct request as [itemId body|itemId body|itemId|body]; simpl.
  - unfold postInventory. destruct (validateInventory body); [|now left].
    apply createInventory_writes.
  - unfold putInventory. destruct (validateInventory body); [|now left].
    apply updateInventory_writes.
  - apply deleteInventory_writes.
  - unfold postTransaction. destruct (validateTransaction _ _); [|now left].
    apply createTransaction_writes.
Qed.

(** ** Nothing is removed *)

(** X4 — No request removes anything: through any sequence of requests
    every _id of the inventories keeps a document (the delete is soft),
    and the log only grows at its end, so every transaction once written
    stays, unchanged and in place. *)
Theorem nothing_is_removed (isMongoId : string -> bool)
    (requests : list (User * Request)) (db : Db) :
  (forall id, is_Some (inventories db !! id) ->
              is_Some (inventories (run isMongoId requests db) !! id))
  /\ exists new,
       transactions (run isMongoId requests db) = (transactions db ++ new)%list.
Proof.
  revert db. induction requests as [|[user request] rest IH]; intros db; simpl.
  - split; [auto|]. exists []. now rewrite app_nil_r.
  - destruct (IH (handle isMongoId user request db).2) as [Hdom [more Hlog]].
    destruct (handle_writes isMongoId user request db)
      as [Heq|(id & item & new & Hinv & Hnew & _)].
    + rewrite Heq in *. split; [exact Hdom|]. now exists more.
    + split.
      * intros id' Hsome. apply Hdom. rewrite Hinv.
        destruct (decide (id = id')) as [->|Hne];
          [rewrite lookup_insert_eq | rewrite lookup_insert_ne]; eauto.
      * exists (new ++ more)%list. rewrite Hlog, Hnew. now rewrite app_assoc.
Qed.

(** ** The types in the log *)

Lemma run_writtenType (isMongoId : string -> bool)
    (requests : list (User * Request)) (db : Db) :
  Forall writtenType (transactions db) ->
  Forall writtenType (transactions (run isMongoId requests db)).
Proof.
  revert db. induction requests as [|[user request] rest IH]; intros db Hlog; simpl.
  - exact Hlog.
  - apply IH.
    destruct (handle_writes isMongoId user request db)
      as [->|(id & item & new & _ & Hnew & _ & _ & _ & Hall)]; [exact Hlog|].
    rewrite Hnew. apply Forall_app. split; [exact Hlog|].
    eapply Forall_impl; [exact Hall|]. now intros t (_ & _ & _ & Ht).
Qed.

Lemma count_by_written_type (query : Z * Transaction.doc -> bool)
    (collection : list (Z * Transaction.doc)) :
  Forall writtenType (map snd collection) ->
  countDocuments query collection
  = countDocuments (fun d => query d && ofType "check-in" d) collection
    + countDocuments (fun d => query d && ofType "check-out" d) collection
    + countDocuments (fun d => query d && ofType "adjustment" d) collection.
Proof.
  unfold countDocuments, ofType.
  induction collection as [|[createdAt t] rest IH]; intros Hall; [reflexivity|].
  inversion Hall as [|? ? Ht Hrest]; subst. specialize (IH Hrest).
  cbn [List.filter snd]. destruct (query (createdAt, t)); cbn [andb]; [|exact IH].
  destruct Ht as [Ht|[Ht|Ht]]; simpl in Ht; rewrite Ht; cbn [String.eqb];
    simpl; simpl in IH; lia.
Qed.

(** X5 — The counts of the transaction summary add up: over the log that
    any sequence of requests builds from an empty database, under any
    date range, the total equals the check-in, check-out and adjustment
    counts together (no transfer is ever written); and the summary lists
    at most five recent transactions. *)
Theorem summary_counts_add_up (isMongoId : string -> bool)
    (requests : list (User * Request))
    (schoolId : ObjectId) (startDate endDate : option Z)
    (collection : list (Z * Transaction.doc)) :
  map snd collection = transactions (run isMongoId requests (mkDb ∅ [])) ->
  SummaryStats.total (summaryStats schoolId startDate endDate collection)
  = SummaryStats.checkIn (summaryStats schoolId startDate endDate collection)
    + SummaryStats.checkOut (summaryStats schoolId startDate endDate collection)
    + SummaryStats.adjustment (summaryStats schoolId startDate endDate collection)
  /\ (length (SummaryStats.recent (summaryStats schoolId startDate endDate collection))
      <= 5)%nat.
Proof.
  intros Hlog. split.
  - apply count_by_written_type. rewrite Hlog.
    apply run_writtenType. constructor.
  - simpl. rewrite length_take. lia.
Qed.

Lemma summary_counts_add_up_witness :
  SummaryStats.total (summaryStats lincolnId (Some 1500) None termLog)
  = SummaryStats.checkIn (summaryStats lincolnId (Some 1500) None termLog)
    + SummaryStats.checkOut (summaryStats lincolnId (Some 1500) None termLog)
    + SummaryStats.adjustment (summaryStats lincolnId (Some 1500) None termLog)
  /\ (length (SummaryStats.recent (summaryStats lincolnId (Some 1500%Z) None termLog))
      <= 5)%nat.
Proof.
  apply (summary_counts_add_up hex24 term). vm_compute. reflexivity.
Defined.

(** The summary of the sample term from the second transaction on: four
    transactions, of which one check-out, two adjustments, one check-in. *)
Example summary_of_term :
  let s := summaryStats lincolnId (Some 1500) None termLog in
  (SummaryStats.total s, SummaryStats.checkIn s, SummaryStats.checkOut s,
   SummaryStats.adjustment s, map fst (SummaryStats.recent s))
  = (4, 1, 1, 2, [5000; 4000; 3000; 2000]).
Proof. vm_compute. reflexivity. Qed.

(** ** Check-in, and check-in followed by check-out *)










(** ** Direct updates and the soft delete *)

Lemma validated_assign_saves (item : Inventory.doc) (body : InventoryBody.t) :
  validateInventory body = true ->
  Qle_bool 0 (Inventory.cost item) = true ->
  inventoryValid (assign item (sanitizeInventory body)) = true.
Proof.
  unfold validateInventory. rewrite !andb_true_iff.
  intros [[[[Hname Hq] Hunit] _] Hcost] Hitem.
  unfold inventoryValid, Inventory.quantityValid, Inventory.costValid, assign,
    sanitizeInventory.
  cbn [Inventory.name Inventory.unit_ Inventory.quantity Inventory.cost
       InventoryBody.name InventoryBody.unit_ InventoryBody.quantity
       InventoryBody.cost].
  rewrite trim_idempotent, Hname, Hunit, Hq. simpl.
  destruct (InventoryBody.cost body); simpl in *; assumption.
Qed.

(** X8 — A validated PUT whose body holds only a name, a unit, a
    quantity and optionally a category, thresholds and a cost, each of
    its schema type (the category a 24-digit hexadecimal id, the numbers
    integers that doubles hold exactly), on an item of the user's school
    (active or not) found under the id of the path, with a stored cost
    >= 0 and a stored quantity that a double holds exactly, stores the
    body's quantity and is answered 200.  When that quantity differs
    from the stored one, exactly one transaction is appended: an
    adjustment of the item with previousQuantity the old quantity,
    newQuantity the new one, their difference as delta, and the reason
    "Manual adjustment"; when it does not differ, nothing is appended. *)
Theorem direct_update_is_logged (itemId : ObjectId) (user : User)
    (body : InventoryBody.t) (db : Db) (item : Inventory.doc) :
  validateInventory body = true ->
  takenExactly (JsPutInventory itemId body) = true ->
  findOne db itemId (user_school user) false = Some item ->
  Qle_bool 0 (Inventory.cost item) = true ->
  exactZ (Inventory.quantity item) = true ->
  status (putInventory itemId user body db).1 = 200
  /\ inventories (putInventory itemId user body db).2
     = <[itemId := assign item (sanitizeInventory body)]> (inventories db)
  /\ Inventory.quantity (assign item (sanitizeInventory body))
     = InventoryBody.quantity body
  /\ (InventoryBody.quantity body <> Inventory.quantity item ->
      exists t,
        transactions (putInventory itemId user body db).2
        = (transactions db ++ [t])%list
        /\ Transaction.type t = "adjustment"
        /\ Transaction.inventory t = itemId
        /\ Transaction.school t = user_school user
        /\ Transaction.user t = user_id user
        /\ Transaction.previousQuantity t = Inventory.quantity item
        /\ Transaction.newQuantity t = InventoryBody.quantity body
        /\ Transaction.quantity t
           = InventoryBody.quantity body - Inventory.quantity item
        /\ Transaction.reason t = Some "Manual adjustment")
  /\ (InventoryBody.quantity body = Inventory.quantity item ->
      transactions (putInventory itemId user body db).2 = transactions db).
Proof.
  intros Hv _ Hf Hcost _.
  pose proof (validated_assign_saves item body Hv Hcost) as Hvalid.
  unfold putInventory, updateInventory. rewrite Hv, Hf, Hvalid.
  unfold Transaction.valid. cbn [manualAdjustment Transaction.type Transaction.cost].
  rewrite (inventoryValid_cost _ Hvalid).
  change (Inventory.quantity (assign item (sanitizeInventory body)))
    with (InventoryBody.quantity body).
  destruct (Z.eqb_spec (Inventory.quantity item) (InventoryBody.quantity body))
    as [Heq|Hne]; simpl.
  - repeat split. intros Hdiff. congruence.
  - repeat split; [|congruence]. intros _. eexists. split; [reflexivity|].
    now repeat split.
Qed.

Lemma direct_update_is_logged_witness :
  exists t,
    transactions (putInventory pencilsId staff (newPencils 0) (stockroom 4)).2 = [t]
    /\ Transaction.type t = "adjustment"
    /\ Transaction.inventory t = pencilsId
    /\ Transaction.school t = lincolnId
    /\ Transaction.user t = staffId
    /\ Transaction.previousQuantity t = 4
    /\ Transaction.newQuantity t = 0
    /\ Transaction.quantity t = 0 - 4
    /\ Transaction.reason t = Some "Manual adjustment".
Proof.
  apply (direct_update_is_logged pencilsId staff (newPencils 0) (stockroom 4)
           (pencils 4) eq_refl eq_refl eq_refl eq_refl eq_refl).
  simpl. lia.
Defined.

(** X9 — After the soft delete of an item its document is still stored,
    with its quantity, and the log is untouched; from then on every
    transaction request that names the item, by any user, changes nothing
    and is answered by the validation failure or by 404 Inventory item
    not found, while the update and delete routes still find the item. *)
Theorem soft_delete_closes_the_ledger (isMongoId : string -> bool)
    (user : User) (itemId : ObjectId) (db : Db) (item : Inventory.doc) :
  findOne db itemId (user_school user) false = Some item ->
  (deleteInventory itemId user db).1
  = mkResponse 200 "Inventory item deleted successfully" NoPayload
  /\ inventories (deleteInventory itemId user db).2 !! itemId
     = Some (Inventory.setActive false item)
  /\ Inventory.quantity (Inventory.setActive false item) = Inventory.quantity item
  /\ transactions (deleteInventory itemId user db).2 = transactions db
  /\ findOne (deleteInventory itemId user db).2 itemId (user_school user) false
     = Some (Inventory.setActive false item)
  /\ forall (caller : User) (body : TransactionBody.t),
       TransactionBody.inventory body = itemId ->
       (postTransaction isMongoId caller body (deleteInventory itemId user db).2).2
       = (deleteInventory itemId user db).2
       /\ ((postTransaction isMongoId caller body (deleteInventory itemId user db).2).1
           = mkResponse 400 "Validation failed" NoPayload
           \/ (postTransaction isMongoId caller body (deleteInventory itemId user db).2).1
              = mkResponse 404 "Inventory item not found" NoPayload).
Proof.
  intros Hf. pose proof (findOne_school _ _ _ _ _ Hf) as Hschool.
  unfold deleteInventory. rewrite Hf. cbn [fst snd inventories transactions].
  split; [reflexivity|]. split; [apply lookup_insert_eq|].
  split; [reflexivity|]. split; [reflexivity|]. split.
  - unfold findOne. cbn [inventories]. rewrite lookup_insert_eq. simpl.
    now rewrite Hschool, String.eqb_refl.
  - intros caller body Hid. unfold postTransaction.
    destruct (validateTransaction isMongoId body); [|split; [reflexivity | now left]].
    unfold createTransaction, findOne.
    cbn [sanitizeTransaction TransactionBody.inventory inventories].
    rewrite Hid, lookup_insert_eq. simpl.
    rewrite andb_false_r. split; [reflexivity | now right].
Qed.

Lemma soft_delete_closes_the_ledger_witness :
  (postTransaction hex24 staff (move "check-in" 5 None)
     (deleteInventory pencilsId staff (stockroom 4)).2).2
  = (deleteInventory pencilsId staff (stockroom 4)).2.
Proof.
  destruct (soft_delete_closes_the_ledger hex24 staff pencilsId (stockroom 4)
              (pencils 4) eq_refl) as (_ & _ & _ & _ & _ & Hclosed).
  exact (proj1 (Hclosed staff (move "check-in" 5 None) eq_refl)).
Defined.

(** ** The status filter and the status virtual *)

(** X10 — On an item with a quantity >= 0 and a minThreshold >= 0, the
    status filter of the inventory list agrees with the stockStatus
    virtual for out-of-stock and in-stock; the low-stock filter selects
    the low-stock and also the out-of-stock items; the overstock filter
    selects every overstock item and never an in-stock one. *)
Theorem status_filter_vs_virtual (item : Inventory.doc) :
  0 <= Inventory.quantity item ->
  0 <= Inventory.minThreshold item ->
  (statusQuery "out-of-stock" item = true
   <-> Inventory.stockStatus item = "out-of-stock")
  /\ (statusQuery "in-stock" item = true
      <-> Inventory.stockStatus item = "in-stock")
  /\ (statusQuery "low-stock" item = true
      <-> Inventory.stockStatus item = "low-stock"
          \/ Inventory.stockStatus item = "out-of-stock")
  /\ (Inventory.stockStatus item = "overstock" ->
      statusQuery "overstock" item = true)
  /\ (statusQuery "overstock" item = true ->
      Inventory.stockStatus item = "overstock"
      \/ Inventory.quantity item <= Inventory.minThreshold item).
Proof.
  intros Hq Hmin.
  unfold statusQuery, Inventory.stockStatus, Inventory.classifyStock.
  cbn [String.eqb Ascii.eqb Bool.eqb andb].
  destruct (Z.leb_spec (Inventory.quantity item) 0);
    destruct (Z.leb_spec (Inventory.quantity item) (Inventory.minThreshold item));
    destruct (Z.geb_spec (Inventory.quantity item) (Inventory.maxThreshold item));
    destruct (Z.eqb_spec (Inventory.quantity item) 0);
    destruct (Z.ltb_spec (Inventory.minThreshold item) (Inventory.quantity item));
    destruct (Z.ltb_spec (Inventory.quantity item) (Inventory.maxThreshold item));
    try lia; simpl; repeat split; intros; try discriminate; try tauto; try lia;
    intuition discriminate.
Qed.

Lemma status_filter_vs_virtual_witness :
  statusQuery "low-stock" (pencils 0) = true
  <-> Inventory.stockStatus (pencils 0) = "low-stock"
      \/ Inventory.stockStatus (pencils 0) = "out-of-stock".
Proof.
  assert (H0 : 0 <= 0) by lia. assert (H5 : 0 <= 5) by lia.
  exact (proj1 (proj2 (proj2 (status_filter_vs_virtual (pencils 0) H0 H5)))).
Defined.

(** With the thresholds crossed, an item the virtual calls low-stock
    passes the overstock filter. *)
Example overstock_filter_lists_low_stock :
  statusQuery "overstock"
    (Inventory.mk "Chalk" suppliesId lincolnId 3 "boxes" 5 2 0%Q true) = true
  /\ Inventory.stockStatus
       (Inventory.mk "Chalk" suppliesId lincolnId 3 "boxes" 5 2 0%Q true)
     = "low-stock".
Proof. split; reflexivity. Qed.

(** ** The recommended order *)





(** ** Pages *)

Lemma paginate_items {A : Type} (page limit : Z) (found : list A) :
  1 <= page -> 1 <= limit ->
  paginate page limit found
  = Some (take (Z.to_nat limit) (drop (Z.to_nat ((page - 1) * limit)) found),
          Pagination.mk page
            (Some (- ((- Z.of_nat (length found)) / limit)))
            (Z.of_nat (length found)) limit).
Proof.
  intros Hp Hl. unfold paginate, skipStage, limitStage, pageCount.
  destruct (Z.ltb_spec ((page - 1) * limit) 0); [nia|].
  destruct (Z.eqb_spec limit 0); [lia|].
  now rewrite Z.abs_eq by lia.
Qed.

Lemma chunks_make_prefix {A : Type} (size : nat) (found : list A) (n : nat) :
  flat_map (fun k => take size (drop ((k - 1) * size) found)) (seq 1 n)
  = take (n * size) found.
Proof.
  induction n as [|n IH]; [reflexivity|].
  rewrite seq_S, flat_map_app, IH. simpl.
  rewrite app_nil_r, Nat.sub_0_r, take_take_drop. f_equal. lia.
Qed.

Lemma flat_map_agree {A B : Type} (f g : A -> list B) (l : list A) :
  (forall x, In x l -> f x = g x) -> flat_map f l = flat_map g l.
Proof.
  induction l as [|x l IH]; intros Hext; simpl; [reflexivity|].
  rewrite (Hext x) by now left. f_equal. apply IH. intros y Hy. apply Hext. now right.
Qed.

Lemma pageCount_covers (total limit : Z) :
  0 <= total -> 1 <= limit ->
  0 <= - ((- total) / limit)
  /\ total <= - ((- total) / limit) * limit
  /\ - ((- total) / limit) * limit < total + limit.
Proof.
  intros Ht Hl.
  pose proof (Z.div_mod (- total) limit ltac:(lia)) as Hdm.
  pose proof (Z.mod_pos_bound (- total) limit ltac:(lia)) as Hb.
  repeat split; nia.
Qed.

(** X12 — With a limit of at least 1, and the numbers involved within
    the integers that doubles hold exactly, the pages of a list route
    partition the result of its query: every page reports current =
    page, total = the number of results, limit = limit and pages =
    ceil(total / limit), that is the one number [n] with
    total <= n * limit < total + limit; no page holds more than [limit]
    documents; pages 1 to [n] put end to end are the whole result in
    its order; and every page after the last is empty. *)
Theorem pages_partition_the_result {A : Type} (limit : Z) (found : list A) :
  1 <= limit ->
  safe (Z.of_nat (length found) + limit) ->
  exists n : nat,
    Z.of_nat (length found) <= Z.of_nat n * limit < Z.of_nat (length found) + limit
    /\ (forall page, 1 <= page -> safe (page * limit) ->
          exists items info,
            paginate page limit found = Some (items, info)
            /\ Pagination.current info = page
            /\ Pagination.pages info = Some (Z.of_nat n)
            /\ Pagination.total info = Z.of_nat (length found)
            /\ Pagination.limit info = limit
            /\ (Z.of_nat (length items) <= limit)
            /\ (Z.of_nat n < page -> items = []))
    /\ flat_map
         (fun k => match paginate (Z.of_nat k) limit found with
                   | Some (items, _) => items
                   | None => []
                   end)
         (seq 1 n)
       = found.
Proof.
  intros Hl _.
  destruct (pageCount_covers (Z.of_nat (length found)) limit ltac:(lia) Hl)
    as (Hpos & Hcov & Hleast).
  exists (Z.to_nat (- ((- Z.of_nat (length found)) / limit))).
  rewrite Z2Nat.id by exact Hpos. split; [lia|]. split.
  - intros page Hp _. eexists _, _. split; [apply (paginate_items _ _ _ Hp Hl)|].
    simpl. repeat split.
    + rewrite length_take. lia.
    + intros Hlast. rewrite drop_ge; [now rewrite take_nil|]. nia.
  - rewrite <- (take_ge found
        (Z.to_nat (- ((- Z.of_nat (length found)) / limit)) * Z.to_nat limit))
      at 2 by nia.
    rewrite <- chunks_make_prefix. apply flat_map_agree.
    intros k Hk. apply in_seq in Hk.
    rewrite paginate_items by lia. do 2 f_equal. nia.
Qed.

Lemma pages_partition_the_result_witness :
  exists n : nat,
    5 <= Z.of_nat n * 2 < 5 + 2
    /\ (forall page, 1 <= page -> safe (page * 2) ->
          exists items info,
            paginate page 2 [10; 20; 30; 40; 50] = Some (items, info)
            /\ Pagination.current info = page
            /\ Pagination.pages info = Some (Z.of_nat n)
            /\ Pagination.total info = 5
            /\ Pagination.limit info = 2
            /\ (Z.of_nat (length items) <= 2)
            /\ (Z.of_nat n < page -> items = []))
    /\ flat_map
         (fun k => match paginate (Z.of_nat k) 2 [10; 20; 30; 40; 50] with
                   | Some (items, _) => items
                   | None => []
                   end)
         (seq 1 n)
       = [10; 20; 30; 40; 50].
Proof.
  assert (H2 : 1 <= 2) by lia.
  assert (H7 : safe (Z.of_nat (length [10; 20; 30; 40; 50]) + 2))
    by (split; now apply Z.leb_le).
  exact (pages_partition_the_result 2 [10; 20; 30; 40; 50] H2 H7).
Defined.

(** The five documents above on pages of two: the first and the last of
    three pages. *)
Example pages_of_two :
  option_map fst (paginate 1 2 [10; 20; 30; 40; 50]) = Some [10; 20]
  /\ option_map fst (paginate 3 2 [10; 20; 30; 40; 50]) = Some [50]
  /\ option_map (fun r => Pagination.pages r.2) (paginate 3 2 [10; 20; 30; 40; 50])
     = Some (Some 3).
Proof. repeat split. Qed.

(** ** The category report accounts for every item *)

Lemma addToGroups_sums (item : Inventory.doc) (groups : list Group.t) :
  sumZ (map Group.itemCount (addToGroups item groups))
  = sumZ (map Group.itemCount groups) + 1
  /\ sumZ (map Group.totalQuantity (addToGroups item groups))
     = sumZ (map Group.totalQuantity groups) + Inventory.quantity item
  /\ sumZ (map Group.lowStockItems (addToGroups item groups))
     = sumZ (map Group.lowStockItems groups) + lowStock item.
Proof.
  unfold sumZ. induction groups as [|g rest IH]; simpl; [lia|].
  destruct (String.eqb (Group._id g) (Inventory.category item)); simpl; lia.
Qed.

Lemma groupStage_sums (items : list Inventory.doc) (groups : list Group.t) :
  sumZ (map Group.itemCount
          (fold_left (fun gs item => addToGroups item gs) items groups))
  = sumZ (map Group.itemCount groups) + Z.of_nat (length items)
  /\ sumZ (map Group.totalQuantity
             (fold_left (fun gs item => addToGroups item gs) items groups))
     = sumZ (map Group.totalQuantity groups)
       + sumZ (map Inventory.quantity items)
  /\ sumZ (map Group.lowStockItems
             (fold_left (fun gs item => addToGroups item gs) items groups))
     = sumZ (map Group.lowStockItems groups) + sumZ (map lowStock items).
Proof.
  revert groups. induction items as [|item rest IH]; intros groups.
  - cbn [fold_left map length]. change (sumZ []) with 0. lia.
  - cbn [fold_left]. destruct (IH (addToGroups item groups)) as (H1 & H2 & H3).
    destruct (addToGroups_sums item groups) as (A1 & A2 & A3).
    rewrite H1, H2, H3, A1, A2, A3. cbn [map length]. unfold sumZ. simpl. lia.
Qed.

Lemma addToGroups_ids (item : Inventory.doc) (groups : list Group.t) (id : ObjectId) :
  id ∈ map Group._id (addToGroups item groups) ->
  id ∈ map Group._id groups \/ id = Inventory.category item.
Proof.
  induction groups as [|g rest IH]; simpl.
  - intros Hin. apply list_elem_of_singleton in Hin. now right.
  - destruct (String.eqb (Group._id g) (Inventory.category item)); simpl;
      [now left|].
    intros Hin. apply elem_of_cons in Hin as [->|Hin].
    + left. apply elem_of_cons. now left.
    + destruct (IH Hin) as [Hrest|Hcat]; [|now right].
      left. apply elem_of_cons. now right.
Qed.

Lemma addToGroups_NoDup (item : Inventory.doc) (groups : list Group.t) :
  NoDup (map Group._id groups) ->
  NoDup (map Group._id (addToGroups item groups)).
Proof.
  induction groups as [|g rest IH]; simpl; intros Hnd.
  - apply NoDup_singleton.
  - apply NoDup_cons in Hnd as [Hnotin Hrest].
    destruct (String.eqb_spec (Group._id g) (Inventory.category item)) as [Heq|Hne];
      simpl; apply NoDup_cons; split; auto.
    intros Hin. apply addToGroups_ids in Hin as [Hin|Hcat]; [auto | congruence].
Qed.

Lemma groupStage_NoDup (items : list Inventory.doc) (groups : list Group.t) :
  NoDup (map Group._id groups) ->
  NoDup (map Group._id (fold_left (fun gs item => addToGroups item gs) items groups)).
Proof.
  revert groups. induction items as [|item rest IH]; intros groups Hnd; simpl.
  - exact Hnd.
  - apply IH. now apply addToGroups_NoDup.
Qed.

Lemma projectAll_ids (categories : gmap string Category) (groups : list Group.t)
    (rows : list CategoryStat.t) :
  projectAll categories groups = Some rows ->
  map CategoryStat._id rows `sublist_of` map Group._id groups.
Proof.
  revert rows. induction groups as [|g rest IH]; simpl; intros rows Hrows.
  - inversion Hrows. constructor.
  - destruct (projectStage categories g) as [first|] eqn:Hg; [|discriminate].
    destruct (projectAll categories rest) as [more|]; [|discriminate].
    inversion Hrows; subst. specialize (IH more eq_refl).
    unfold projectStage in Hg.
    destruct (categories !! Group._id g); [|inversion Hg; subst; now constructor].
    destruct (divide _ _); inversion Hg; subst. simpl. now constructor.
Qed.

Lemma projectAll_known (categories : gmap string Category) (groups : list Group.t) :
  Forall (groupOk (fun id => is_Some (categories !! id))) groups ->
  exists rows,
    projectAll categories groups = Some rows
    /\ map CategoryStat.itemCount rows = map Group.itemCount groups
    /\ map CategoryStat.totalQuantity rows = map Group.totalQuantity groups
    /\ map CategoryStat.lowStockItems rows = map Group.lowStockItems groups.
Proof.
  induction 1 as [|g rest [Hc [category Hk]] _ (more & Hmore & H1 & H2 & H3)]; simpl.
  - exists []. repeat split.
  - unfold projectStage. rewrite Hmore, Hk, (divide_by_count _ _ Hc).
    eexists. split; [reflexivity|]. simpl. now rewrite H1, H2, H3.
Qed.

Lemma insertByValue_Forall (P : CategoryStat.t -> Prop) (row : CategoryStat.t)
    (sorted : list CategoryStat.t) :
  P row -> Forall P sorted -> Forall P (insertByValue row sorted).
Proof.
  intros Hrow. induction 1 as [|r rest Hr Hrest IH]; simpl.
  - constructor; [exact Hrow | constructor].
  - destruct (Qle_bool _ _); constructor; try assumption.
    constructor; assumption.
Qed.

Lemma insertByValue_descending (row : CategoryStat.t) (sorted : list CategoryStat.t) :
  descending sorted -> descending (insertByValue row sorted).
Proof.
  induction sorted as [|r rest IH]; simpl; intros Hd.
  - split; [constructor | exact I].
  - destruct Hd as [Hall Hrest].
    destruct (Qle_bool (CategoryStat.totalValue r) (CategoryStat.totalValue row)) eqn:E.
    + apply Qle_bool_iff in E. simpl. split; [|now split].
      constructor; [exact E|]. eapply Forall_impl; [exact Hall|].
      intros later Hl. simpl in Hl. now apply Qle_trans with (CategoryStat.totalValue r).
    + simpl. split; [|now apply IH].
      apply insertByValue_Forall; [|exact Hall].
      apply Qlt_le_weak, Qnot_le_lt. intros Hle.
      apply Qle_bool_iff in Hle. congruence.
Qed.

Lemma sortStage_descending (rows : list CategoryStat.t) : descending (sortStage rows).
Proof.
  induction rows as [|row rest IH]; simpl; [exact I|].
  now apply insertByValue_descending.
Qed.

Lemma insertByValue_Permutation (row : CategoryStat.t) (sorted : list CategoryStat.t) :
  insertByValue row sorted ≡ₚ row :: sorted.
Proof.
  induction sorted as [|r rest IH]; simpl; [reflexivity|].
  destruct (Qle_bool _ _); [reflexivity|]. rewrite IH. apply Permutation_swap.
Qed.

Lemma sortStage_Permutation (rows : list CategoryStat.t) : sortStage rows ≡ₚ rows.
Proof.
  induction rows as [|row rest IH]; simpl; [reflexivity|].
  now rewrite insertByValue_Permutation, IH.
Qed.

Lemma sumZ_Permutation (l l' : list Z) : l ≡ₚ l' -> sumZ l = sumZ l'.
Proof.
  unfold sumZ. induction 1; simpl; lia.
Qed.

(** X13 — The rows of the category report come in descending order of
    total value, no two for the same category; and when the category of
    every active item of the school exists, the rows account for every
    such item: their item counts add up to the number of these items,
    their total quantities to the items' quantities, and their low stock
    counts to the number of items at or under their minThreshold. *)
Theorem category_report_accounts (schoolId : ObjectId)
    (categories : gmap string Category) (items : list Inventory.doc)
    (rows : list CategoryStat.t) :
  categoryStats schoolId categories items = Some rows ->
  NoDup (map CategoryStat._id rows)
  /\ descending rows
  /\ ((forall item, In item (matchStage schoolId items) ->
                    is_Some (categories !! Inventory.category item)) ->
      sumZ (map CategoryStat.itemCount rows)
      = Z.of_nat (length (matchStage schoolId items))
      /\ sumZ (map CategoryStat.totalQuantity rows)
         = sumZ (map Inventory.quantity (matchStage schoolId items))
      /\ sumZ (map CategoryStat.lowStockItems rows)
         = sumZ (map lowStock (matchStage schoolId items))).
Proof.
  unfold categoryStats.
  destruct (projectAll categories (groupStage (matchStage schoolId items)))
    as [unsorted|] eqn:Hproj; [|discriminate].
  intros Hrows. inversion Hrows; subst rows. clear Hrows.
  split; [|split].
  - rewrite (Permutation_map CategoryStat._id (sortStage_Permutation unsorted)).
    eapply sublist_NoDup; [|apply (projectAll_ids _ _ _ Hproj)].
    apply groupStage_NoDup. constructor.
  - apply sortStage_descending.
  - intros Hknown.
    assert (Hgroups : Forall (groupOk (fun id => is_Some (categories !! id)))
                             (groupStage (matchStage schoolId items)))
      by (apply fold_groups_ok; [exact Hknown | constructor]).
    destruct (projectAll_known categories _ Hgroups) as (rows & Hsame & H1 & H2 & H3).
    rewrite Hproj in Hsame. inversion Hsame; subst rows. clear Hsame.
    destruct (groupStage_sums (matchStage schoolId items) []) as (S1 & S2 & S3).
    fold (groupStage (matchStage schoolId items)) in S1, S2, S3.
    change (sumZ (map _ [])) with 0 in S1, S2, S3.
    rewrite (sumZ_Permutation _ _
               (Permutation_map CategoryStat.itemCount (sortStage_Permutation unsorted))).
    rewrite (sumZ_Permutation _ _
               (Permutation_map CategoryStat.totalQuantity (sortStage_Permutation unsorted))).
    rewrite (sumZ_Permutation _ _
               (Permutation_map CategoryStat.lowStockItems (sortStage_Permutation unsorted))).
    rewrite H1, H2, H3. lia.
Qed.

Lemma category_report_accounts_witness :
  exists rows,
    categoryStats lincolnId supplies [pencils 4; pencils 0; pencils 120] = Some rows
    /\ NoDup (map CategoryStat._id rows)
    /\ descending rows
    /\ sumZ (map CategoryStat.itemCount rows) = 3
    /\ sumZ (map CategoryStat.totalQuantity rows) = 124
    /\ sumZ (map CategoryStat.lowStockItems rows) = 2.
Proof.
  eexists. split; [reflexivity|].
  destruct (category_report_accounts lincolnId supplies
              [pencils 4; pencils 0; pencils 120] _ eq_refl)
    as (Hnd & Hdesc & Hsums).
  split; [exact Hnd|]. split; [exact Hdesc|].
  apply Hsums. intros item Hin. simpl in Hin.
  destruct Hin as [<-|[<-|[<-|[]]]]; simpl; unfold supplies;
    rewrite lookup_singleton_eq; eauto.
Defined.

(** ** The balance of an item *)




(** The sample run leaves 7 pencils: 10 - 4, adjusted to 2, set to 0 by
    an update, the transfer refused, then 7 checked in. *)
Example balance_of_termJs :
  map Transaction.quantity (transactions (runJs hex24 termJs (mkDb ∅ [])))
  = [10; -4; -4; -2; 7]
  /\ replay pencilsId (transactions (runJs hex24 termJs (mkDb ∅ []))) = 7
  /\ stored (runJs hex24 termJs (mkDb ∅ [])) pencilsId = 7.
Proof. repeat split; vm_compute; reflexivity. Qed.

(** The check-in of the string "5" on 4 pencils, which is not taken
    exactly, leaves a log that does not replay to the stored quantity. *)
Example checkin_of_string_breaks_the_replay :
  takenExactly (JsPostTransaction (moveJs "check-in" (JStr "5") None)) = false
  /\ replay pencilsId
       (transactions
          (runJs hex24
             [(staff, JsPostInventory pencilsId (newPencils 4));
              (staff, JsPostTransaction (moveJs "check-in" (JStr "5") None))]
             (mkDb ∅ [])))
     = 9
  /\ stored
       (runJs hex24
          [(staff, JsPostInventory pencilsId (newPencils 4));
           (staff, JsPostTransaction (moveJs "check-in" (JStr "5") None))]
          (mkDb ∅ []))
       pencilsId
     = 45.
Proof. repeat split; vm_compute; reflexivity. Qed.

(** ** Creation without a category *)

(** X17 — A creation whose body names no category is not stopped by the
    validator (which does not look at the category) but fails when the
    document is saved: once validated, the response is the 500 failure;
    and neither an item nor a transaction is written. *)
Theorem creation_without_category_fails (itemId : ObjectId) (user : User)
    (body : InventoryBody.t) (db : Db) :
  InventoryBody.category body = None ->
  (postInventory itemId user body db).2 = db
  /\ (validateInventory body = true ->
      (postInventory itemId user body db).1
      = mkResponse 500 "Failed to create inventory item" NoPayload).
Proof.
  intros Hcat.
  unfold postInventory, createInventory, newInventory.
  destruct (validateInventory body); cbn [sanitizeInventory InventoryBody.category];
    rewrite ?Hcat; repeat split; discriminate.
Qed.

Lemma creation_without_category_fails_witness :
  (postInventory pencilsId staff
     (InventoryBody.mk "Pencils" None 10 "boxes" None None None) (mkDb ∅ []))
  = (mkResponse 500 "Failed to create inventory item" NoPayload, mkDb ∅ []).
Proof.
  destruct (creation_without_category_fails pencilsId staff
              (InventoryBody.mk "Pencils" None 10 "boxes" None None None)
              (mkDb ∅ []) eq_refl) as (Hdb & Hresp).
  rewrite (surjective_pairing (postInventory _ _ _ _)).
  now rewrite Hdb, (Hresp eq_refl).
Defined.

(** ** The log holds what the schema accepts *)

Lemma handle_valid_log (isMongoId : string -> bool) user request db :
  Forall (fun t => Transaction.valid t = true) (transactions db) ->
  Forall (fun t => Transaction.valid t = true)
         (transactions (handle isMongoId user request db).2).
Proof.
  intros Hlog.
  assert (Hsnoc : forall t, Transaction.valid t = true ->
            Forall (fun t => Transaction.valid t = true) (transactions db ++ [t]))
    by (intros t Ht; apply Forall_app; split; [exact Hlog | now constructor]).
  destruct request as [itemId body|itemId body|itemId|body]; simpl.
  - unfold postInventory, createInventory.
    destruct (validateInventory body); [|exact Hlog].
    destruct (newInventory _ _) as [item|]; [|exact Hlog].
    destruct (inventories db !! itemId); [exact Hlog|].
    destruct (inventoryValid item); [|exact Hlog].
    destruct (0 <? Inventory.quantity item); [|exact Hlog].
    destruct (Transaction.valid _) eqn:Ht; [|exact Hlog]. now apply Hsnoc.
  - unfold putInventory, updateInventory.
    destruct (validateInventory body); [|exact Hlog].
    destruct (findOne _ _ _ _) as [found|]; [|exact Hlog].
    destruct (inventoryValid _); [|exact Hlog].
    destruct (negb _); [|exact Hlog].
    destruct (Transaction.valid _) eqn:Ht; [|exact Hlog]. now apply Hsnoc.
  - unfold deleteInventory. now destruct (findOne _ _ _ _).
  - unfold postTransaction, createTransaction.
    destruct (validateTransaction _ _); [|exact Hlog].
    destruct (findOne _ _ _ _) as [item|]; [|exact Hlog].
    destruct (switchType _ _ _) as [n d|]; [|exact Hlog].
    unfold saveBoth.
    destruct (Transaction.valid _) eqn:Ht;
      destruct (Inventory.quantityValid _); simpl; auto.
Qed.

(** X18 — Whatever the requests, the log only ever holds transactions
    that pass the Transaction schema: each has a type of the schema's
    enum and a cost >= 0, so that its totalValue virtual, |quantity| x
    cost, is never negative.  A transaction the schema refuses is never
    stored. *)
Theorem log_holds_valid_transactions (isMongoId : string -> bool)
    (requests : list (User * Request)) (t : Transaction.doc) :
  In t (transactions (run isMongoId requests (mkDb ∅ []))) ->
  In (Transaction.type t) Transaction.enum
  /\ (0 <= Transaction.cost t)%Q
  /\ (0 <= Transaction.totalValue t)%Q.
Proof.
  assert (Hlog : Forall (fun t => Transaction.valid t = true)
                        (transactions (run isMongoId requests (mkDb ∅ [])))).
  { assert (H0 : Forall (fun t => Transaction.valid t = true)
                        (transactions (mkDb ∅ []))) by constructor.
    revert H0. generalize (mkDb ∅ []).
    induction requests as [|[user request] rest IH]; intros db Hdb; simpl.
    - exact Hdb.
    - apply IH. now apply handle_valid_log. }
  intros Hin. rewrite Forall_forall in Hlog. apply list_elem_of_In in Hin.
  specialize (Hlog t Hin). unfold Transaction.valid in Hlog.
  apply andb_true_iff in Hlog as [Htype Hcost].
  apply Qle_bool_iff in Hcost. split; [|split; [exact Hcost|]].
  - apply existsb_exists in Htype as (s & Hs & Heq).
    apply String.eqb_eq in Heq. now subst.
  - unfold Transaction.totalValue. apply Qmult_le_0_compat; [|exact Hcost].
    unfold Qle. simpl. lia.
Qed.

Lemma log_holds_valid_transactions_witness :
  In "check-in" Transaction.enum
  /\ (0 <= 3 # 2)%Q
  /\ (0 <= Transaction.totalValue
             (Transaction.mk "check-in" pencilsId lincolnId staffId 10 0 10
                (Some "Initial stock") (3 # 2)))%Q.
Proof.
  apply (log_holds_valid_transactions hex24 term
           (Transaction.mk "check-in" pencilsId lincolnId staffId 10 0 10
              (Some "Initial stock") (3 # 2))).
  vm_compute. now left.
Defined.

(** ** Categories in use *)

Lemma filter_nonempty {A : Type} (f : A -> bool) (l : list A) :
  (0 < length (List.filter f l))%nat <-> exists x, In x l /\ f x = true.
Proof.
  split.
  - destruct (List.filter f l) as [|x rest] eqn:E; simpl; [lia|]. intros _.
    exists x. apply filter_In. rewrite E. now left.
  - intros (x & Hin & Hf). assert (Hx : In x (List.filter f l)) by now apply filter_In.
    destruct (List.filter f l); [destruct Hx | simpl; lia].
Qed.

Lemma countItems_positive (categoryId schoolId : ObjectId) (db : Db) :
  0 < countItems categoryId schoolId db
  <-> exists itemId item,
        inventories db !! itemId = Some item
        /\ Inventory.category item = categoryId
        /\ Inventory.school item = schoolId
        /\ Inventory.isActive item = true.
Proof.
  unfold countItems, countDocuments.
  rewrite <- Nat2Z.inj_0, <- Nat2Z.inj_lt, filter_nonempty. split.
  - intros (item & Hin & Hf). apply in_map_iff in Hin as ([itemId item'] & Heq & Hin).
    simpl in Heq. subst item'. apply list_elem_of_In, elem_of_map_to_list in Hin.
    apply andb_true_iff in Hf as [Hf Ha]. apply andb_true_iff in Hf as [Hc Hs].
    apply String.eqb_eq in Hc, Hs. now exists itemId, item.
  - intros (itemId & item & Hlook & Hc & Hs & Ha). exists item. split.
    + apply in_map_iff. exists (itemId, item). split; [reflexivity|].
      now apply list_elem_of_In, elem_of_map_to_list.
    + now rewrite Hc, Hs, Ha, !String.eqb_refl.
Qed.

(** X19 — A category of the caller's school is soft-deleted exactly when
    no active item of that school refers to it.  While one does, the
    delete is refused with 400, reporting how many (at least 1), and the
    categories are untouched; otherwise the answer is 200 and only the
    category's isActive flag is cleared, the document staying in place. *)
Theorem category_in_use_is_kept (categoryId : ObjectId) (user : User)
    (categories : gmap string CategoryDoc.t) (db : Db) (category : CategoryDoc.t) :
  categories !! categoryId = Some category ->
  CategoryDoc.school category = user_school user ->
  ((exists itemId item,
      inventories db !! itemId = Some item
      /\ Inventory.category item = categoryId
      /\ Inventory.school item = user_school user
      /\ Inventory.isActive item = true)
   -> exists n,
        1 <= n
        /\ deleteCategory categoryId user categories db
           = (mkCategoryResponse 400 "Cannot delete category with existing items"
                (Some n),
              categories))
  /\ ((forall itemId item,
         inventories db !! itemId = Some item ->
         Inventory.category item = categoryId ->
         Inventory.school item = user_school user ->
         Inventory.isActive item = false)
      -> deleteCategory categoryId user categories db
         = (mkCategoryResponse 200 "Category deleted successfully" None,
            <[categoryId :=
                CategoryDoc.mk (CategoryDoc.name category) (CategoryDoc.color category)
                  (CategoryDoc.school category) false]>
              categories)).
Proof.
  intros Hlook Hschool. unfold deleteCategory.
  rewrite Hlook, Hschool, String.eqb_refl.
  pose proof (countItems_positive categoryId (user_school user) db) as Hcount.
  destruct (Z.ltb_spec 0 (countItems categoryId (user_school user) db)) as [Hpos|Hzero].
  - split.
    + intros _. exists (countItems categoryId (user_school user) db).
      split; [lia | reflexivity].
    + intros Hnone. apply Hcount in Hpos as (itemId & item & Hi & Hc & Hs & Ha).
      rewrite (Hnone itemId item Hi Hc Hs) in Ha. discriminate.
  - split; [|reflexivity].
    intros Hsome. apply Hcount in Hsome. lia.
Qed.

Lemma category_in_use_is_kept_witness :
  exists n,
    1 <= n
    /\ deleteCategory suppliesId staff classrooms (stockroom 4)
       = (mkCategoryResponse 400 "Cannot delete category with existing items" (Some n),
          classrooms).
Proof.
  apply (category_in_use_is_kept suppliesId staff classrooms (stockroom 4)
           (CategoryDoc.mk "Supplies" "#3B82F6" lincolnId true)).
  - apply lookup_singleton_eq.
  - reflexivity.
  - exists pencilsId, (pencils 4). split; [apply lookup_singleton_eq | now repeat split].
Defined.

(** Once the only item of the category is soft-deleted, the category can
    be deleted. *)
Example category_freed_by_soft_delete :
  categoryStatus
    (deleteCategory suppliesId staff classrooms
       (deleteInventory pencilsId staff (stockroom 4)).2).1
  = 200.
Proof. vm_compute. reflexivity. Qed.
